(** * regional_report.js: the Anonymous Regional Disease Report page

    A shallow embedding of [src/static/js/regional_report.js] and the
    properties of the page it drives: the farm drop-down and the two
    coordinate fields, the detection of the position, the static treatment
    guide, the request for the regional statistics, and the chart, summary
    table and treatment cards rendered from the answer.

    Conventions of the embedding.
    - A JavaScript number that the page treats as a tree count or a severity
      rank is an integer; it is a [Z], and [+], [-] and the comparisons on it
      are the ones of [Z].  This is exact for doubles that hold integers of
      magnitude at most 2^53, the range of counts a JSON response carries.
    - Where the script leaves the integers ([count / totalTrees * 100] and
      the coordinates) numbers are IEEE 754 binary64 values, [spec_float]
      with [prec = 53] and [emax = 1024], and the operations are the
      correctly rounded ones of [SpecFloat].
    - A property that may be missing ([undefined] or [null]) is an [option];
      truthiness is written out for each type.
    - The DOM, the Chart.js registry and the collaborators ([apiCall],
      [displayMessage]) are fields of explicit state records; what an
      awaited request yields is an argument of the function that awaits it.
    - The callbacks of the geolocation request and of the timer are
      functions of their own; when they run is not part of the embedding. *)

From Stdlib Require Import ZArith List String Ascii Bool Lia.
From Stdlib Require Import Floats.SpecFloat DecimalString.
From Stdlib Require Import QArith Qabs Qpower Lqa.
From Stdlib Require Import Sorting.Sorted Sorting.Permutation.
Import ListNotations.

Open Scope Z_scope.

(** ** JavaScript numbers *)

Module Number.

Definition prec : Z := 53.
Definition emax : Z := 1024.

(** The double nearest to an integer (the integer itself up to 2^53). *)
Definition of_Z (z : Z) : spec_float := binary_normalize prec emax z 0 false.

Definition div : spec_float -> spec_float -> spec_float := SFdiv prec emax.
Definition mul : spec_float -> spec_float -> spec_float := SFmul prec emax.

(** ToBoolean on a number: [+0], [-0] and [NaN] are falsy. *)
Definition truthy (x : spec_float) : bool :=
  match x with
  | S754_zero _ | S754_nan => false
  | S754_infinity _ | S754_finite _ _ _ => true
  end.

(** The template-literal text of an integer-valued number. *)
Definition string_of_Z (z : Z) : string := NilZero.string_of_int (Z.to_int z).

(** [Number.prototype.toFixed(1)], step "let n be an integer for which
    n / 10 - x is as close to zero as possible; if there are two such n,
    pick the larger n", for x = m * 2^e > 0. *)
Definition nearest_tenth (m : positive) (e : Z) : Z :=
  if 0 <=? e then 10 * Zpos m * 2 ^ e
  else (20 * Zpos m + 2 ^ (- e)) / 2 ^ (1 - e).

(** x >= 10^21 for x = m * 2^e: [toFixed] then answers with ToString(x). *)
Definition at_least_1e21 (m : positive) (e : Z) : bool :=
  if 0 <=? e then 10 ^ 21 <=? Zpos m * 2 ^ e
  else 10 ^ 21 * 2 ^ (- e) <=? Zpos m.

(** [x.toFixed(1)].  [None] stands for the one case left out: a magnitude
    of 10^21 or more, printed by Number::toString in exponent notation. *)
Definition toFixed1 (x : spec_float) : option string :=
  match x with
  | S754_nan => Some "NaN"%string
  | S754_infinity s => Some (if s then "-Infinity" else "Infinity")%string
  | S754_zero _ => Some "0.0"%string
  | S754_finite s m e =>
      if at_least_1e21 m e then None
      else
        let n := nearest_tenth m e in
        Some ((if s then "-" else "")
                ++ string_of_Z (n / 10) ++ "." ++ string_of_Z (n mod 10))%string
  end.

(** The exact rational value of a finite double m * 2^e. *)
Definition Q_of_finite (m : positive) (e : Z) : Q :=
  match e with
  | Z0 => Zpos m # 1
  | Zpos p => Zpos m * Zpos (2 ^ p) # 1
  | Zneg p => Zpos m # (2 ^ p)
  end.

End Number.

(** ** Objects used as look-up tables *)

(** The own properties of an object literal, in source order. *)
Definition ObjectLiteral (A : Type) : Type := list (string * A).

Fixpoint own_property {A : Type} (o : ObjectLiteral A) (key : string) : option A :=
  match o with
  | [] => None
  | (k, v) :: o' => if String.eqb k key then Some v else own_property o' key
  end.

(** An object literal inherits from [Object.prototype]; a key that names one
    of its members is found there when the literal has no such own property. *)
Definition Object_prototype_members : list string :=
  [ "constructor"; "__defineGetter__"; "__defineSetter__"; "hasOwnProperty";
    "__lookupGetter__"; "__lookupSetter__"; "isPrototypeOf";
    "propertyIsEnumerable"; "toString"; "valueOf"; "__proto__";
    "toLocaleString" ]%string.

Definition inherited (key : string) : bool :=
  existsb (String.eqb key) Object_prototype_members.

(** The value of [o[key]]. *)
Inductive Property (A : Type) : Type :=
| Own (v : A)               (* an own property of the literal *)
| Inherited (key : string)  (* a function or object of [Object.prototype] *)
| Undefined.                (* [undefined] *)
Arguments Own {A} v.
Arguments Inherited {A} key.
Arguments Undefined {A}.

Definition get {A : Type} (o : ObjectLiteral A) (key : string) : Property A :=
  match own_property o key with
  | Some v => Own v
  | None => if inherited key then Inherited key else Undefined
  end.

Definition DISEASE_SEVERITY_INDEX : ObjectLiteral Z :=
  [ ("Healthy", 0);
    ("Sooty Mould", 1);
    ("Powdery Mildew", 2);
    ("Gall Midge", 2);
    ("Anthracnose", 3);
    ("Bacterial Canker", 3);
    ("Cutting Weevil", 3);
    ("die back", 3) ]%string.

Definition DISEASE_COLOR_MAP : ObjectLiteral string :=
  [ ("Anthracnose", "#f0ad4e");
    ("Bacterial Canker", "#337ab7");
    ("Cutting Weevil", "#9966FF");
    ("die back", "#dc3545");
    ("Gall Midge", "#ffc107");
    ("Powdery Mildew", "#20c997");
    ("Sooty Mould", "#6c757d") ]%string.

(** [DISEASE_COLOR_MAP[label] || fallback]: every color string of the map is
    non-empty, hence truthy, and so is an inherited member. *)
Inductive Color : Type :=
| ColorText (css : string)
| ColorInherited (key : string).

Definition color_or (label fallback : string) : Color :=
  match get DISEASE_COLOR_MAP label with
  | Own css => if (String.length css =? 0)%nat then ColorText fallback else ColorText css
  | Inherited key => ColorInherited key
  | Undefined => ColorText fallback
  end.

(** ** Truthiness and [||] on optional strings *)

(** ToBoolean on a string-or-missing value: missing and [''] are falsy. *)
Definition truthy_string (v : option string) : bool :=
  match v with
  | Some s => negb (String.length s =? 0)%nat
  | None => false
  end.

(** [v || fallback] for a string-or-missing [v]. *)
Definition or_string (v : option string) (fallback : string) : string :=
  match v with
  | Some s => if truthy_string v then s else fallback
  | None => fallback
  end.

(** ToBoolean on a number-or-missing value. *)
Definition truthy_number (v : option spec_float) : bool :=
  match v with
  | Some x => Number.truthy x
  | None => false
  end.

(** ** Location selector: [loadFarmLocations] *)

(** A record of the saved-locations response.  A coordinate that is absent
    (or [null]) is [None]. *)
Record Farm : Type := {
  farm_name : string;
  latitude : option spec_float;
  longitude : option spec_float
}.

(** An [<option>] of the farm drop-down.  The option appended for a farm has
    value [`${farm.latitude},${farm.longitude}`] and text
    [`${farm.farm_name} (${farm.latitude}, ${farm.longitude})`]; it is kept
    as the farm it was built from. *)
Inductive SelectOption : Type :=
| Placeholder (text : string)
| FarmOption (farm : Farm).

Record FarmSelect : Type := {
  options : list SelectOption;
  disabled : bool;
  change_listener : bool
}.

(** What [await UserAPI.getFarms()] yields. *)
Inductive FarmsOutcome : Type :=
| FarmsOk (farms : list Farm)
| FarmsThrow.

(** [f => f.latitude && f.longitude] *)
Definition has_coordinates (f : Farm) : bool :=
  truthy_number (latitude f) && truthy_number (longitude f).

(** The state after [loadFarmLocations]: the global [savedFarms] and the
    drop-down. *)
Definition loadFarmLocations (outcome : FarmsOutcome)
    (savedFarms0 : list Farm) (farmSelect : FarmSelect)
  : list Farm * FarmSelect :=
  match outcome with
  | FarmsOk farms =>
      let savedFarms := filter has_coordinates farms in
      if (List.length savedFarms =? 0)%nat then
        (savedFarms,
         {| options := [Placeholder "-- No Geo-tagged Farms Found --"];
            disabled := true;
            change_listener := change_listener farmSelect |})
      else
        (savedFarms,
         {| options := options farmSelect ++ map FarmOption savedFarms;
            disabled := disabled farmSelect;
            change_listener := true |})
  | FarmsThrow =>
      (savedFarms0,
       {| options := [Placeholder "-- Error Loading Farms --"];
          disabled := true;
          change_listener := change_listener farmSelect |})
  end.

(** ** Static guide: [loadAllTreatments] *)

Record Disease : Type := {
  name : string;
  organic_treatment : option string;
  chemical_treatment : option string
}.

Record GuideRow : Type := {
  guide_name : string;
  guide_organic : string;
  guide_chemical : string
}.

Definition no_organic : string := "No specific organic treatment recorded.".
Definition no_chemical : string := "No specific chemical treatment recorded.".

(** The body of [diseases.forEach]: the rows added to the table. *)
Definition guide_rows (diseases : list Disease) : list GuideRow :=
  flat_map
    (fun disease =>
       if String.eqb (name disease) "Healthy" then []
       else [ {| guide_name := name disease;
                 guide_organic := or_string (organic_treatment disease) no_organic;
                 guide_chemical := or_string (chemical_treatment disease) no_chemical |} ])
    diseases.

(** ** [Array.prototype.sort] with a comparator *)

(** ECMAScript's sort is stable, and for a consistent comparator the stable
    ordering of an array is unique; insertion from the right computes it.
    [x], which stood before every element of [l], stays before [y] unless
    the comparator puts [y] strictly first. *)
Section Sort.
Context {A : Type} (comparefn : A -> A -> Z).

Fixpoint sort_insert (x : A) (l : list A) : list A :=
  match l with
  | [] => [x]
  | y :: l' => if comparefn x y <=? 0 then x :: l else y :: sort_insert x l'
  end.

Definition sort (l : list A) : list A := fold_right sort_insert [] l.
End Sort.

(** ** Report renderer *)

(** [Object.entries(distributionData)]: disease name and affected-tree count,
    in property order. *)
Definition Distribution : Type := list (string * Z).

Definition keys (d : Distribution) : list string := map fst d.
Definition values (d : Distribution) : list Z := map snd d.

(** [rawCounts.reduce((sum, count) => sum + count, 0)] *)
Definition sum (rawCounts : list Z) : Z :=
  fold_left (fun sum count => sum + count) rawCounts 0.

(** The double [(count / total) * 100]. *)
Definition percent_value (count total : Z) : spec_float :=
  Number.mul (Number.div (Number.of_Z count) (Number.of_Z total)) (Number.of_Z 100).

(** [total > 0 ? ((count / total) * 100).toFixed(1) + '%' : '0%'] *)
Definition percentage (count total : Z) : option string :=
  if 0 <? total
  then option_map (fun s => (s ++ "%")%string) (Number.toFixed1 (percent_value count total))
  else Some "0%"%string.

(** [`affected tree${count !== 1 ? 's' : ''}`] *)
Definition affected_trees (count : Z) : string :=
  ("affected tree" ++ (if negb (Z.eqb count 1) then "s" else ""))%string.

(** The tooltip's [label] callback; [context.label] is a string, [context.raw]
    the slice's count and [context.dataset.data] the chart's counts. *)
Definition tooltip_label (label : string) (raw : Z) (data : list Z) : option string :=
  let label := or_string (Some label) "" in
  let rawCount := raw in
  let total := fold_left (fun a b => a + b) data 0 in
  option_map
    (fun percentage =>
       (label ++ ": " ++ percentage ++ " (" ++ Number.string_of_Z rawCount
          ++ " " ++ affected_trees rawCount ++ ")")%string)
    (if 0 <? total
     then option_map (fun s => (s ++ "%")%string)
            (Number.toFixed1 (percent_value rawCount total))
     else Some "0%"%string).

(** The value of [DISEASE_SEVERITY_INDEX[disease] || 'N/A']. *)
Inductive Severity : Type :=
| Rank (rank : Z)               (* a truthy own rank *)
| InheritedMember (key : string) (* a member of [Object.prototype], truthy *)
| NA.                           (* the string ['N/A'] *)

Definition severity_of (disease : string) : Severity :=
  match get DISEASE_SEVERITY_INDEX disease with
  | Own rank => if rank =? 0 then NA else Rank rank
  | Inherited key => InheritedMember key
  | Undefined => NA
  end.

(** [severity >= k]: ToNumber of ['N/A'], of a function and of
    [Object.prototype] is [NaN], and every comparison with [NaN] is false. *)
Definition severity_ge (severity : Severity) (k : Z) : bool :=
  match severity with
  | Rank rank => k <=? rank
  | InheritedMember _ => false
  | NA => false
  end.

(** [severity >= 3 ? 'red' : severity >= 2 ? 'orange' : 'green'] *)
Definition severity_color (severity : Severity) : string :=
  if severity_ge severity 3 then "red"
  else if severity_ge severity 2 then "orange"
  else "green".

Record SummaryRow : Type := {
  row_disease : string;
  row_count : Z;
  row_percentage : option string;
  row_severity : Severity;
  row_color : string
}.

(** The body of [sortedEntries.forEach]. *)
Definition summary_row (totalTrees : Z) (entry : string * Z) : SummaryRow :=
  let '(disease, count) := entry in
  let severity := severity_of disease in
  {| row_disease := disease;
     row_count := count;
     row_percentage := percentage count totalTrees;
     row_severity := severity;
     row_color := severity_color severity |}.

(** [([, countA], [, countB]) => countB - countA] *)
Definition by_count_descending (a b : string * Z) : Z := snd b - snd a.

Record SummaryTable : Type := {
  rows : list SummaryRow;
  total_count : Z;              (* the TOTAL row: [${totalTrees}] *)
  total_percentage : string     (* and its fixed ['100.0%'] *)
}.

(** The table [renderSummaryTable] builds in [tableHTML]. *)
Definition summary_table (distributionData : Distribution) : SummaryTable :=
  let rawCounts := values distributionData in
  let totalTrees := sum rawCounts in
  let sortedEntries := sort by_count_descending distributionData in
  {| rows := map (summary_row totalTrees) sortedEntries;
     total_count := totalTrees;
     total_percentage := "100.0%" |}.

(** A top-threat record of the statistics response. *)
Record TopTreatment : Type := {
  threat_name : string;
  threat_count : Z;
  organic : option string;
  chemical : option string
}.

Record TreatmentCard : Type := {
  card_rank : Z;                (* [index + 1] *)
  card_name : string;
  card_count : Z;
  card_trees : string;          (* ["affected tree"] or ["affected trees"] *)
  card_border : Color;
  card_organic : string;
  card_chemical : string
}.

Definition treatment_card (index : nat) (threat : TopTreatment) : TreatmentCard :=
  let count := threat_count threat in
  {| card_rank := Z.of_nat index + 1;
     card_name := threat_name threat;
     card_count := count;
     card_trees := affected_trees count;
     card_border := color_or (threat_name threat) "#333";
     card_organic := or_string (organic threat) no_organic;
     card_chemical := or_string (chemical threat) no_chemical |}.

Fixpoint treatment_cards_from (index : nat) (topTreatments : list TopTreatment)
  : list TreatmentCard :=
  match topTreatments with
  | [] => []
  | threat :: rest => treatment_card index threat :: treatment_cards_from (S index) rest
  end.

(** The cards [renderTopTreatments] builds; the empty list is the empty
    [innerHTML]. *)
Definition top_treatment_cards (topTreatments : list TopTreatment) : list TreatmentCard :=
  if (List.length topTreatments =? 0)%nat then []
  else treatment_cards_from 0 topTreatments.

(** ** Page state *)

(** The configuration handed to [new Chart]; the tooltip callback is
    [tooltip_label] for every chart. *)
Record ChartConfig : Type := {
  chart_labels : list string;
  chart_data : list Z;
  chart_colors : list Color;
  chart_title : string
}.

(** Which of the looked-up elements exist in the document. *)
Record Dom : Type := {
  has_canvas : bool;            (* [regionalDiseaseChartCanvas] *)
  has_summary : bool;           (* [regionalDataSummary] *)
  has_treatment : bool          (* [treatmentSummary] *)
}.

Record Page : Type := {
  regionalChartInstance : option nat;        (* [null] or a chart handle *)
  chart_registry : list (nat * ChartConfig); (* Chart.js: charts not destroyed *)
  charts_created : nat;                      (* next chart handle *)
  chartMessage : string;                     (* [chartMessage.textContent] *)
  regionalDataSummary : option SummaryTable; (* [None] is the empty [innerHTML] *)
  treatmentSummary : list TreatmentCard;
  messages : list (string * bool);           (* [displayMessage] calls, latest first *)
  requests : list string;                    (* [apiCall] endpoints, latest first *)
  generate_disabled : bool;
  generate_text : string
}.

Definition set_chart (instance : option nat) (registry : list (nat * ChartConfig))
    (created : nat) (p : Page) : Page :=
  {| regionalChartInstance := instance;
     chart_registry := registry;
     charts_created := created;
     chartMessage := chartMessage p;
     regionalDataSummary := regionalDataSummary p;
     treatmentSummary := treatmentSummary p;
     messages := messages p;
     requests := requests p;
     generate_disabled := generate_disabled p;
     generate_text := generate_text p |}.

Definition set_chartMessage (text : string) (p : Page) : Page :=
  {| regionalChartInstance := regionalChartInstance p;
     chart_registry := chart_registry p;
     charts_created := charts_created p;
     chartMessage := text;
     regionalDataSummary := regionalDataSummary p;
     treatmentSummary := treatmentSummary p;
     messages := messages p;
     requests := requests p;
     generate_disabled := generate_disabled p;
     generate_text := generate_text p |}.

Definition set_summary (content : option SummaryTable) (p : Page) : Page :=
  {| regionalChartInstance := regionalChartInstance p;
     chart_registry := chart_registry p;
     charts_created := charts_created p;
     chartMessage := chartMessage p;
     regionalDataSummary := content;
     treatmentSummary := treatmentSummary p;
     messages := messages p;
     requests := requests p;
     generate_disabled := generate_disabled p;
     generate_text := generate_text p |}.

Definition set_treatment (cards : list TreatmentCard) (p : Page) : Page :=
  {| regionalChartInstance := regionalChartInstance p;
     chart_registry := chart_registry p;
     charts_created := charts_created p;
     chartMessage := chartMessage p;
     regionalDataSummary := regionalDataSummary p;
     treatmentSummary := cards;
     messages := messages p;
     requests := requests p;
     generate_disabled := generate_disabled p;
     generate_text := generate_text p |}.

Definition set_button (is_disabled : bool) (text : string) (p : Page) : Page :=
  {| regionalChartInstance := regionalChartInstance p;
     chart_registry := chart_registry p;
     charts_created := charts_created p;
     chartMessage := chartMessage p;
     regionalDataSummary := regionalDataSummary p;
     treatmentSummary := treatmentSummary p;
     messages := messages p;
     requests := requests p;
     generate_disabled := is_disabled;
     generate_text := text |}.

(** The collaborator [displayMessage(text, isError)]. *)
Definition displayMessage (text : string) (isError : bool) (p : Page) : Page :=
  {| regionalChartInstance := regionalChartInstance p;
     chart_registry := chart_registry p;
     charts_created := charts_created p;
     chartMessage := chartMessage p;
     regionalDataSummary := regionalDataSummary p;
     treatmentSummary := treatmentSummary p;
     messages := (text, isError) :: messages p;
     requests := requests p;
     generate_disabled := generate_disabled p;
     generate_text := generate_text p |}.

(** The collaborator [apiCall(endpoint, 'GET')], as far as the page sees it:
    the request goes out. *)
Definition apiCall (endpoint : string) (p : Page) : Page :=
  {| regionalChartInstance := regionalChartInstance p;
     chart_registry := chart_registry p;
     charts_created := charts_created p;
     chartMessage := chartMessage p;
     regionalDataSummary := regionalDataSummary p;
     treatmentSummary := treatmentSummary p;
     messages := messages p;
     requests := endpoint :: requests p;
     generate_disabled := generate_disabled p;
     generate_text := generate_text p |}.

(** [if (regionalChartInstance) regionalChartInstance.destroy()]: the chart
    leaves the registry; the handle keeps pointing at it. *)
Definition destroy_chart (p : Page) : Page :=
  match regionalChartInstance p with
  | Some handle =>
      set_chart (Some handle)
        (filter (fun entry => negb (Nat.eqb (fst entry) handle)) (chart_registry p))
        (charts_created p) p
  | None => p
  end.

(** [new Chart(ctx, config)], assigned to [regionalChartInstance]. *)
Definition new_chart (config : ChartConfig) (p : Page) : Page :=
  let handle := charts_created p in
  set_chart (Some handle) ((handle, config) :: chart_registry p) (S handle) p.

Definition renderRegionalChart (dom : Dom) (distributionData : Distribution)
    (p : Page) : Page :=
  if negb (has_canvas dom) then p
  else
    let labels := keys distributionData in
    let rawCounts := values distributionData in
    let totalTrees := sum rawCounts in
    let colors := map (fun label => color_or label "#cccccc") labels in
    let p := destroy_chart p in
    new_chart
      {| chart_labels := labels;
         chart_data := rawCounts;
         chart_colors := colors;
         chart_title :=
           ("Regional Disease Distribution (Total Affected Trees: "
              ++ Number.string_of_Z totalTrees ++ ")")%string |}
      p.

Definition renderSummaryTable (dom : Dom) (distributionData : Distribution)
    (p : Page) : Page :=
  if negb (has_summary dom) then p
  else set_summary (Some (summary_table distributionData)) p.

Definition renderTopTreatments (dom : Dom) (topTreatments : list TopTreatment)
    (p : Page) : Page :=
  if negb (has_treatment dom) then p
  else set_treatment (top_treatment_cards topTreatments) p.

(** ** Regional report fetcher *)

Record Response : Type := {
  regional_data : option Distribution;
  top_treatments : option (list TopTreatment);
  message : option string
}.

(** What [await apiCall(endpoint, 'GET')] yields: a response, or a thrown
    error with its optional [message]. *)
Inductive ApiOutcome : Type :=
| Resolved (response : Response)
| Rejected (error_message : option string).

Definition no_trees_found : string := "No active diseased trees found within 5km.".

(** [`${v}`] for a string-or-missing [v]. *)
Definition template_string (v : option string) : string :=
  match v with
  | Some s => s
  | None => "undefined"
  end.

Definition loadRegionalStatistics (dom : Dom) (latitude longitude : string)
    (outcome : ApiOutcome) (p : Page) : Page :=
  let p := set_chartMessage "Fetching data from surrounding 5km..." p in
  let p := if has_summary dom then set_summary None p else p in
  let p := if has_treatment dom then set_treatment [] p else p in
  let endpoint :=
    ("/api/user/regional-stats?latitude=" ++ latitude
       ++ "&longitude=" ++ longitude)%string in
  let p := apiCall endpoint p in
  match outcome with
  | Resolved response =>
      let regionalData :=
        match regional_data response with Some d => d | None => [] end in
      let topTreatments :=
        match top_treatments response with Some t => t | None => [] end in
      if (List.length (keys regionalData) =? 0)%nat then
        let p := set_chartMessage (or_string (message response) no_trees_found) p in
        destroy_chart p
      else
        let p := renderRegionalChart dom regionalData p in
        let p := renderSummaryTable dom regionalData p in
        let p := renderTopTreatments dom topTreatments p in
        displayMessage "Regional disease risk assessment loaded successfully." false p
  | Rejected error_message =>
      let p :=
        set_chartMessage
          ("Failed to load regional data: " ++ template_string error_message)%string p in
      let p :=
        displayMessage (or_string error_message "Failed to load regional data.") true p in
      destroy_chart p
  end.

(** ** Page controller: the click handler of [generateReport] *)

Definition enter_both : string := "Please enter or detect both Latitude and Longitude.".

(** [latitude] and [longitude] are the [value]s of the two inputs. *)
Definition generate_click (dom : Dom) (latitude longitude : string)
    (outcome : ApiOutcome) (p : Page) : Page :=
  if negb (truthy_string (Some latitude)) || negb (truthy_string (Some longitude))
  then displayMessage enter_both true p
  else
    let p := set_button true "Analyzing..." p in
    let p := loadRegionalStatistics dom latitude longitude outcome p in
    set_button false "Generate Report" p.

(** A click on the button, with the field values at that moment and what the
    endpoint would answer. *)
Record Click : Type := {
  click_latitude : string;
  click_longitude : string;
  click_outcome : ApiOutcome
}.

Definition click (dom : Dom) (p : Page) (c : Click) : Page :=
  generate_click dom (click_latitude c) (click_longitude c) (click_outcome c) p.

(** The page after a sequence of clicks. *)
Definition run (dom : Dom) (clicks : list Click) (p : Page) : Page :=
  fold_left (click dom) clicks p.

(** The script's globals when the document has loaded:
    [let regionalChartInstance = null] and no chart created; nothing was
    requested or displayed yet.  The state of the report button at that
    moment is set by the page's markup, which is not part of the script: the
    two button fields hold the state in which the click handler leaves the
    button, and the properties of the button are stated for any page. *)
Definition page_on_load : Page :=
  {| regionalChartInstance := None;
     chart_registry := [];
     charts_created := 0%nat;
     chartMessage := "";
     regionalDataSummary := None;
     treatmentSummary := [];
     messages := [];
     requests := [];
     generate_disabled := false;
     generate_text := "Generate Report" |}.

(** ** Farm selection: [handleFarmSelection] *)

(** [s.split(separator)] for a one-character separator: the pieces of [s]
    between the separators, at least one. *)
Fixpoint split (separator : ascii) (s : string) : list string :=
  match s with
  | EmptyString => [EmptyString]
  | String c rest =>
      if Ascii.eqb c separator then EmptyString :: split separator rest
      else
        match split separator rest with
        | piece :: pieces => String c piece :: pieces
        | [] => [String c EmptyString]
        end
  end.

(** The [value]s of the inputs [reportLatitude] and [reportLongitude].  An
    input is taken to keep the string assigned to it (the sanitization that
    depends on the input's type is not part of the script). *)
Record Inputs : Type := {
  reportLatitude : string;
  reportLongitude : string
}.

(** [value] is [e.target.value].  [const [lat, lon] = value.split(',')] takes
    the first two pieces, [undefined] for a missing one, and an assignment
    to [value] converts it to a string. *)
Definition handleFarmSelection (value : string) (inputs : Inputs) : Inputs :=
  let inputs := {| reportLatitude := ""; reportLongitude := "" |} in
  if truthy_string (Some value) then
    let pieces := split "," value in
    let lat := nth_error pieces 0 in
    let lon := nth_error pieces 1 in
    {| reportLatitude := template_string lat; reportLongitude := template_string lon |}
  else inputs.

(** ** Static guide: the whole of [loadAllTreatments] *)

Inductive GuideContent : Type :=
| GuideMarkup                         (* what the document had *)
| GuideLoading                        (* "Loading static disease guide..." *)
| GuideTable (table : list GuideRow)  (* heading and table *)
| GuideFailed.                        (* "Failed to load static treatment guide." *)

(** What [await apiCall('/api/user/diseases', 'GET')] yields. *)
Inductive DiseasesOutcome : Type :=
| DiseasesOk (diseases : list Disease)
| DiseasesThrow.

(** The container [allDiseasesTreatment] ([None] when the document has no
    such element) and the requests sent, latest first. *)
Record GuidePage : Type := {
  allDiseasesTreatment : option GuideContent;
  guide_requests : list string
}.

Definition loadAllTreatments (outcome : DiseasesOutcome) (g : GuidePage) : GuidePage :=
  match allDiseasesTreatment g with
  | None => g
  | Some _ =>
      let g := {| allDiseasesTreatment := Some GuideLoading;
                  guide_requests := guide_requests g |} in
      let g := {| allDiseasesTreatment := allDiseasesTreatment g;
                  guide_requests := "/api/user/diseases"%string :: guide_requests g |} in
      match outcome with
      | DiseasesOk diseases =>
          {| allDiseasesTreatment := Some (GuideTable (guide_rows diseases));
             guide_requests := guide_requests g |}
      | DiseasesThrow =>
          {| allDiseasesTreatment := Some GuideFailed;
             guide_requests := guide_requests g |}
      end
  end.

(** ** [Number.prototype.toFixed] with any number of decimals *)

(** The decimal digit [d], for [0 <= d <= 9]. *)
Definition digit (d : Z) : ascii := ascii_of_nat (48 + Z.to_nat d).

(** The [k] lowest decimal digits of [n], highest first. *)
Fixpoint decimals (k : nat) (n : Z) : string :=
  match k with
  | O => EmptyString
  | S k' => (decimals k' (n / 10) ++ String (digit (n mod 10)) EmptyString)%string
  end.

(** The integer [n] for which [n / 10^f - x] is as close to zero as
    possible, the larger one of two, for x = m * 2^e > 0. *)
Definition nearest_scaled (f : nat) (m : positive) (e : Z) : Z :=
  if 0 <=? e then 10 ^ Z.of_nat f * Zpos m * 2 ^ e
  else (2 * 10 ^ Z.of_nat f * Zpos m + 2 ^ (- e)) / 2 ^ (1 - e).

(** [x.toFixed(f)]; [None] as for [Number.toFixed1]. *)
Definition toFixed (f : nat) (x : spec_float) : option string :=
  match x with
  | S754_nan => Some "NaN"%string
  | S754_infinity s => Some (if s then "-Infinity" else "Infinity")%string
  | S754_zero _ =>
      Some ("0" ++ (if (f =? 0)%nat then "" else "." ++ decimals f 0))%string
  | S754_finite s m e =>
      if Number.at_least_1e21 m e then None
      else
        let n := nearest_scaled f m e in
        Some ((if s then "-" else "")
                ++ Number.string_of_Z (n / 10 ^ Z.of_nat f)
                ++ (if (f =? 0)%nat then ""
                    else "." ++ decimals f (n mod 10 ^ Z.of_nat f)))%string
  end.

(** ** Page controller: the click handler of [autoDetectLocation] *)

(** The part of the page the handler and its callbacks touch. *)
Record Locator : Type := {
  detect_disabled : bool;
  detect_text : string;
  farmSelect_value : string;
  inputs : Inputs;
  notices : list (string * bool)   (* [displayMessage] calls, latest first *)
}.

(** The click itself, up to the return of the handler: [geolocation] tells
    whether [navigator.geolocation] exists.  The second component tells
    whether [getCurrentPosition] and [setTimeout] were called. *)
Definition detect_click (geolocation : bool) (l : Locator) : Locator * bool :=
  if negb geolocation then
    ({| detect_disabled := detect_disabled l;
        detect_text := detect_text l;
        farmSelect_value := farmSelect_value l;
        inputs := inputs l;
        notices := ("Geolocation is not supported by your browser."%string, true)
                     :: notices l |},
     false)
  else
    ({| detect_disabled := true;
        detect_text := "Detecting...";
        farmSelect_value := "";
        inputs := inputs l;
        notices := ("Please allow browser location access."%string, false) :: notices l |},
     true).


(** The error callback; [error_message] is [error.message]. *)
Definition position_failed (error_message : option string) (l : Locator) : Locator :=
  {| detect_disabled := detect_disabled l;
     detect_text := detect_text l;
     farmSelect_value := farmSelect_value l;
     inputs := inputs l;
     notices :=
       (("Error detecting location: " ++ template_string error_message
           ++ ". Enter manually.")%string, true) :: notices l |}.

(** The callback of [setTimeout(..., 1500)]. *)
Definition detect_timer (l : Locator) : Locator :=
  {| detect_disabled := false;
     detect_text := "Detect Current GPS";
     farmSelect_value := farmSelect_value l;
     inputs := inputs l;
     notices := notices l |}.

(** * Vocabulary of the properties *)

(** Descending order of the counts of two entries. *)
Definition count_ge (a b : string * Z) : Prop := snd b <= snd a.

(** The number of tenths of a percent that the cell built from
    [(count / total) * 100] shows: the integer [n] that [toFixed(1)] prints as
    [n / 10], a dot and [n mod 10]. *)
Definition displayed_tenths (count total : Z) : option Z :=
  match percent_value count total with
  | S754_zero _ => Some 0
  | S754_finite false m e =>
      if Number.at_least_1e21 m e then None else Some (Number.nearest_tenth m e)
  | _ => None
  end.

(** The text of a cell that shows [n] tenths of a percent. *)
Definition percent_text (n : Z) : string :=
  (Number.string_of_Z (n / 10) ++ "." ++ Number.string_of_Z (n mod 10) ++ "%")%string.

(** The sum of the tenths the cells of a distribution show. *)
Definition sum_of_displayed_tenths (d : Distribution) : option Z :=
  fold_right
    (fun entry acc =>
       match displayed_tenths (snd entry) (sum (values d)), acc with
       | Some n, Some a => Some (n + a)
       | _, _ => None
       end)
    (Some 0) d.

(** The exact value of a double that is zero or finite. *)
Definition double_value (x : spec_float) : option Q :=
  match x with
  | S754_zero _ => Some (0 # 1)
  | S754_finite s m e =>
      Some (if s then Qopp (Number.Q_of_finite m e) else Number.Q_of_finite m e)
  | S754_infinity _ | S754_nan => None
  end.

(** A treatment field with the empty string taken for a missing one. *)
Definition missing_if_empty (v : option string) : option string :=
  match v with
  | Some s => if String.eqb s "" then None else Some s
  | None => None
  end.

Definition disease_missing_if_empty (disease : Disease) : Disease :=
  {| name := name disease;
     organic_treatment := missing_if_empty (organic_treatment disease);
     chemical_treatment := missing_if_empty (chemical_treatment disease) |}.

Definition threat_missing_if_empty (threat : TopTreatment) : TopTreatment :=
  {| threat_name := threat_name threat;
     threat_count := threat_count threat;
     organic := missing_if_empty (organic threat);
     chemical := missing_if_empty (chemical threat) |}.

(** The text a treatment cell shows for a field and its placeholder. *)
Definition treatment_text (v : option string) (placeholder : string) : string :=
  match v with
  | Some s => if String.eqb s "" then placeholder else s
  | None => placeholder
  end.

(** [Object.keys(response.regional_data || {}).length === 0] *)
Definition empty_result (response : Response) : bool :=
  match regional_data response with
  | Some d => (List.length (keys d) =? 0)%nat
  | None => true
  end.

(** The chart configuration [renderRegionalChart] passes to [new Chart]. *)
Definition chart_config (distributionData : Distribution) : ChartConfig :=
  {| chart_labels := keys distributionData;
     chart_data := values distributionData;
     chart_colors := map (fun label => color_or label "#cccccc") (keys distributionData);
     chart_title :=
       ("Regional Disease Distribution (Total Affected Trees: "
          ++ Number.string_of_Z (sum (values distributionData)) ++ ")")%string |}.

(** The endpoint [loadRegionalStatistics] requests. *)
Definition regional_stats_endpoint (latitude longitude : string) : string :=
  ("/api/user/regional-stats?latitude=" ++ latitude ++ "&longitude=" ++ longitude)%string.

(** Whether the character [c] occurs in [s]. *)
Fixpoint occurs (c : ascii) (s : string) : bool :=
  match s with
  | EmptyString => false
  | String x rest => Ascii.eqb x c || occurs c rest
  end.



(** The value [m * 2^e] of a mantissa and an exponent. *)
Definition Qval (m e : Z) : Q := inject_Z m * Qpower 2 e.

(** A click that passes the validation: both fields are non-empty. *)
Definition filled_in (c : Click) : bool :=
  negb (String.eqb (click_latitude c) "") && negb (String.eqb (click_longitude c) "").

(** Chart handles are numbers below the next handle. *)
Definition fresh_handles (p : Page) : Prop :=
  (forall handle, regionalChartInstance p = Some handle -> (handle < charts_created p)%nat)
  /\ Forall (fun entry => (fst entry < charts_created p)%nat) (chart_registry p).

(** Every chart that is alive is the one [regionalChartInstance] points at,
    and there is at most one. *)
Definition at_most_one_chart (p : Page) : Prop :=
  match chart_registry p with
  | [] => True
  | [(handle, _)] => regionalChartInstance p = Some handle
  | _ :: _ :: _ => False
  end.

(** * Properties *)

(** ** Sorting *)

Section SortFacts.
Context {A : Type} (comparefn : A -> A -> Z).

Lemma sort_insert_permutation (x : A) (l : list A) :
  Permutation (sort_insert comparefn x l) (x :: l).
Proof.
  induction l as [|y l IH]; simpl.
  - apply Permutation_refl.
  - destruct (comparefn x y <=? 0).
    + apply Permutation_refl.
    + apply perm_trans with (y :: x :: l).
      * now apply perm_skip.
      * apply perm_swap.
Qed.

Lemma sort_permutation (l : list A) : Permutation (sort comparefn l) l.
Proof.
  induction l as [|x l IH]; simpl.
  - apply perm_nil.
  - apply perm_trans with (x :: sort comparefn l).
    + apply sort_insert_permutation.
    + now apply perm_skip.
Qed.

Lemma sort_In (x : A) (l : list A) : In x (sort comparefn l) <-> In x l.
Proof.
  split; apply Permutation_in.
  - apply sort_permutation.
  - apply Permutation_sym, sort_permutation.
Qed.
End SortFacts.

Lemma insert_by_count_sorted (x : string * Z) (l : list (string * Z)) :
  StronglySorted count_ge l ->
  StronglySorted count_ge (sort_insert by_count_descending x l).
Proof.
  induction 1 as [|y l Hl IH Hy]; simpl.
  - constructor; constructor.
  - unfold by_count_descending at 1.
    destruct (Z.leb_spec (snd y - snd x) 0) as [Hle | Hgt].
    + constructor.
      * now constructor.
      * constructor.
        -- unfold count_ge; lia.
        -- eapply Forall_impl; [|exact Hy].
           unfold count_ge; intros; lia.
    + constructor; [exact IH|].
      eapply Permutation_Forall.
      * apply Permutation_sym, sort_insert_permutation.
      * constructor; [unfold count_ge; lia | exact Hy].
Qed.

Lemma sort_by_count_sorted (d : Distribution) :
  StronglySorted count_ge (sort by_count_descending d).
Proof.
  induction d as [|x d IH]; simpl.
  - constructor.
  - now apply insert_by_count_sorted.
Qed.

Lemma StronglySorted_map {A B : Type} (R : A -> A -> Prop) (S : B -> B -> Prop)
    (f : A -> B) (l : list A) :
  (forall a b, R a b -> S (f a) (f b)) ->
  StronglySorted R l -> StronglySorted S (map f l).
Proof.
  intros HRS; induction 1 as [|a l Hl IH Ha]; simpl; constructor; auto.
  apply Forall_map. eapply Forall_impl; [|exact Ha]. auto.
Qed.

Lemma summary_row_entry (totalTrees : Z) (entry : string * Z) :
  (row_disease (summary_row totalTrees entry), row_count (summary_row totalTrees entry))
  = entry.
Proof. now destruct entry. Qed.

(** C8. The rows of the summary table are the entries of the distribution,
    each once, in descending order of affected-tree count (every row's count
    is at least the count of every later row); the distribution
    {A:5, B:12, C:1} gives the rows B, A, C. *)
Theorem summary_rows_sorted_by_count_descending :
  (forall d : Distribution,
      StronglySorted (fun r1 r2 => row_count r2 <= row_count r1)
        (rows (summary_table d))
      /\ Permutation
           (map (fun r => (row_disease r, row_count r)) (rows (summary_table d))) d)
  /\ map row_disease (rows (summary_table [("A", 5); ("B", 12); ("C", 1)]%string))
     = ["B"; "A"; "C"]%string.
Proof.
  split; [intros d; split | reflexivity].
  - unfold summary_table; simpl.
    apply StronglySorted_map with (R := count_ge); [|apply sort_by_count_sorted].
    intros [da ca] [db cb]; unfold count_ge; simpl; auto.
  - unfold summary_table; simpl.
    rewrite map_map.
    erewrite map_ext; [|intros e; apply summary_row_entry].
    rewrite map_id. apply sort_permutation.
Qed.

(** ** Rounding to a double: bounds on [binary_round_aux] *)

Lemma double_fexp (e : Z) :
  fexp Number.prec Number.emax e = Z.max (e - 53) (- 1074).
Proof. reflexivity. Qed.

Lemma digits2_pos_bounds (m : positive) :
  2 ^ (Zpos (digits2_pos m) - 1) <= Zpos m < 2 ^ Zpos (digits2_pos m).
Proof.
  induction m as [m IH|m IH|]; cbn [digits2_pos].
  - rewrite Pos2Z.inj_succ. change (Zpos m~1) with (2 * Zpos m + 1).
    replace (Z.succ (Zpos (digits2_pos m)) - 1) with (Z.succ (Zpos (digits2_pos m) - 1)) by lia.
    rewrite !Z.pow_succ_r by lia. lia.
  - rewrite Pos2Z.inj_succ. change (Zpos m~0) with (2 * Zpos m).
    replace (Z.succ (Zpos (digits2_pos m)) - 1) with (Z.succ (Zpos (digits2_pos m) - 1)) by lia.
    rewrite !Z.pow_succ_r by lia. lia.
  - change (2 ^ (1 - 1)) with 1. change (2 ^ 1) with 2. lia.
Qed.

Lemma shr_1_m (mrs : shr_record) :
  0 <= shr_m mrs -> shr_m (shr_1 mrs) = shr_m mrs / 2.
Proof.
  destruct mrs as [m r s]; cbn [shr_m shr_1].
  destruct m as [|[p|p|]|p]; intros H; try lia; cbn [shr_m].
  - reflexivity.
  - apply Z.div_unique with 1; lia.
  - apply Z.div_unique with 0; lia.
  - reflexivity.
Qed.

Lemma iter_shr_1_m (p : positive) (mrs : shr_record) :
  0 <= shr_m mrs ->
  shr_m (SpecFloat.iter_pos shr_1 p mrs) = shr_m mrs / 2 ^ Zpos p.
Proof.
  revert mrs; induction p as [p IH|p IH|]; intros mrs H; cbn [SpecFloat.iter_pos].
  - assert (H1 : 0 <= shr_m (shr_1 mrs)) by (rewrite shr_1_m by exact H; apply Z.div_pos; lia).
    assert (H2 : 0 <= shr_m (SpecFloat.iter_pos shr_1 p (shr_1 mrs)))
      by (rewrite IH by exact H1; apply Z.div_pos; [exact H1 | apply Z.pow_pos_nonneg; lia]).
    rewrite IH by exact H2. rewrite IH by exact H1. rewrite shr_1_m by exact H.
    assert (Hp : 0 < 2 ^ Zpos p) by (apply Z.pow_pos_nonneg; lia).
    rewrite !Z.div_div by lia. f_equal.
    change (Zpos p~1) with (2 * Zpos p + 1). rewrite Z.pow_add_r, Z.pow_mul_r by lia.
    change (2 ^ 2) with 4. change (2 ^ 1) with 2.
    replace 4 with (2 * 2) by lia. rewrite Z.pow_mul_l. lia.
  - assert (H2 : 0 <= shr_m (SpecFloat.iter_pos shr_1 p mrs))
      by (rewrite IH by exact H; apply Z.div_pos; [exact H | apply Z.pow_pos_nonneg; lia]).
    rewrite IH by exact H2. rewrite IH by exact H.
    assert (Hp : 0 < 2 ^ Zpos p) by (apply Z.pow_pos_nonneg; lia).
    rewrite !Z.div_div by lia. f_equal.
    change (Zpos p~0) with (2 * Zpos p). rewrite Z.pow_mul_r by lia.
    change (2 ^ 2) with 4. replace 4 with (2 * 2) by lia. rewrite Z.pow_mul_l. lia.
  - rewrite shr_1_m by exact H. reflexivity.
Qed.

(** The number of bits [shr_fexp] drops from a mantissa [m] at exponent [e]. *)
Lemma shr_fexp_m (m e : Z) (l : location) :
  0 <= m ->
  exists mrs,
    shr_fexp Number.prec Number.emax m e l
    = (mrs, e + Z.max 0 (fexp Number.prec Number.emax (Zdigits2 m + e) - e))
    /\ shr_m mrs = m / 2 ^ Z.max 0 (fexp Number.prec Number.emax (Zdigits2 m + e) - e).
Proof.
  intros H. unfold shr_fexp, shr.
  assert (Hm : shr_m (shr_record_of_loc m l) = m) by (destruct l as [|[]]; reflexivity).
  destruct (fexp Number.prec Number.emax (Zdigits2 m + e) - e) as [|p|p].
  - exists (shr_record_of_loc m l). change (Z.max 0 0) with 0.
    rewrite Z.add_0_r, Z.div_1_r. auto.
  - exists (SpecFloat.iter_pos shr_1 p (shr_record_of_loc m l)).
    change (Z.max 0 (Zpos p)) with (Zpos p).
    rewrite iter_shr_1_m by (rewrite Hm; exact H). rewrite Hm. auto.
  - exists (shr_record_of_loc m l). change (Z.max 0 (Zneg p)) with 0.
    rewrite Z.add_0_r, Z.div_1_r. auto.
Qed.

Lemma round_nearest_even_bounds (m : Z) (l : location) :
  m <= round_nearest_even m l <= m + 1.
Proof. destruct l as [|[]]; cbn [round_nearest_even]; try destruct (Z.even m); lia. Qed.

(** The result of rounding a non-negative mantissa: [k1] bits are dropped,
    the mantissa is rounded to [r], and [k2] more bits are dropped when the
    rounding carried. *)
Lemma binary_round_aux_shape (mx ex : Z) (lx : location) :
  0 <= mx ->
  exists r : Z,
    let k1 := Z.max 0 (fexp Number.prec Number.emax (Zdigits2 mx + ex) - ex) in
    let k2 := Z.max 0 (fexp Number.prec Number.emax (Zdigits2 r + (ex + k1)) - (ex + k1)) in
    mx / 2 ^ k1 <= r <= mx / 2 ^ k1 + 1
    /\ binary_round_aux Number.prec Number.emax false mx ex lx
       = match r / 2 ^ k2 with
         | Z0 => S754_zero false
         | Zpos m =>
             if ex + k1 + k2 <=? 971 then S754_finite false m (ex + k1 + k2)
             else S754_infinity false
         | Zneg _ => S754_nan
         end.
Proof.
  intros H. unfold binary_round_aux.
  destruct (shr_fexp_m mx ex lx H) as (mrs1 & E1 & M1). rewrite E1.
  set (k1 := Z.max 0 (fexp Number.prec Number.emax (Zdigits2 mx + ex) - ex)) in *.
  set (r := round_nearest_even (shr_m mrs1) (loc_of_shr_record mrs1)).
  assert (Hr : shr_m mrs1 <= r <= shr_m mrs1 + 1) by apply round_nearest_even_bounds.
  assert (H1 : 0 <= shr_m mrs1)
    by (rewrite M1; apply Z.div_pos; [exact H | apply Z.pow_pos_nonneg; lia]).
  destruct (shr_fexp_m r (ex + k1) loc_Exact ltac:(lia)) as (mrs2 & E2 & M2).
  rewrite E2. exists r. cbv zeta. rewrite <- M1. split; [exact Hr|].
  rewrite M2. rewrite Z.add_assoc. reflexivity.
Qed.

Lemma pow2_le_digits (mx k : Z) :
  0 < mx -> 0 <= k -> 2 ^ k <= 2 * mx -> k <= Zdigits2 mx.
Proof.
  intros Hmx Hk Hle. destruct mx as [|p|p]; try lia. cbn [Zdigits2].
  pose proof (digits2_pos_bounds p) as [_ Hd].
  assert (Hlt : 2 ^ k < 2 ^ (Zpos (digits2_pos p) + 1))
    by (rewrite Z.pow_add_r by lia; change (2 ^ 1) with 2; lia).
  apply Z.pow_lt_mono_r_iff in Hlt; lia.
Qed.

(** Rounding a positive mantissa whose exponent is not below the smallest
    one gives a positive double that is at most twice the value rounded. *)
Lemma binary_round_aux_bound (mx ex : Z) (lx : location) :
  0 < mx -> - 1074 <= ex -> ex + Zdigits2 mx <= 971 ->
  binary_round_aux Number.prec Number.emax false mx ex lx = S754_zero false
  \/ exists m e,
       binary_round_aux Number.prec Number.emax false mx ex lx = S754_finite false m e
       /\ ex <= e /\ Zpos m * 2 ^ (e - ex) <= 2 * mx.
Proof.
  intros Hmx Hex Hov.
  destruct (binary_round_aux_shape mx ex lx ltac:(lia)) as (r & Hr & E).
  cbv zeta in Hr, E. rewrite E; clear E.
  set (k1 := Z.max 0 (fexp Number.prec Number.emax (Zdigits2 mx + ex) - ex)) in *.
  set (k2 := Z.max 0 (fexp Number.prec Number.emax (Zdigits2 r + (ex + k1)) - (ex + k1))) in *.
  assert (Hk1 : 0 <= k1) by (unfold k1; lia).
  assert (Hk2 : 0 <= k2) by (unfold k2; lia).
  assert (Hp1 : 2 ^ k1 <= mx).
  { unfold k1. rewrite double_fexp. destruct mx as [|p|p]; try lia. cbn [Zdigits2].
    pose proof (digits2_pos_bounds p) as [Hd _].
    destruct (Z.max_spec 0 (Z.max (Zpos (digits2_pos p) + ex - 53) (- 1074) - ex))
      as [[_ ->] | [_ ->]].
    - eapply Z.le_trans; [|exact Hd]. apply Z.pow_le_mono_r; lia.
    - change (2 ^ 0) with 1. lia. }
  assert (P1 : 0 < 2 ^ k1) by (apply Z.pow_pos_nonneg; lia).
  assert (P2 : 0 < 2 ^ k2) by (apply Z.pow_pos_nonneg; lia).
  pose proof (Z.mul_div_le mx (2 ^ k1) P1) as D1.
  pose proof (Z.mul_div_le r (2 ^ k2) P2) as D2.
  destruct (r / 2 ^ k2) as [|m|m] eqn:Em.
  - left; reflexivity.
  - assert (Hb : Zpos m * 2 ^ (k1 + k2) <= 2 * mx).
    { rewrite Z.pow_add_r by lia. nia. }
    assert (Hk : k1 + k2 <= Zdigits2 mx).
    { apply pow2_le_digits; try lia.
      assert (0 < 2 ^ (k1 + k2)) by (apply Z.pow_pos_nonneg; lia). nia. }
    right. exists m, (ex + k1 + k2).
    destruct (Z.leb_spec (ex + k1 + k2) 971); [|lia].
    split; [reflexivity|]. split; [lia|].
    replace (ex + k1 + k2 - ex) with (k1 + k2) by lia. exact Hb.
  - exfalso.
    assert (0 <= r / 2 ^ k2) by (apply Z.div_pos; [|lia]; pose proof (Z.div_pos mx (2 ^ k1)); lia).
    lia.
Qed.

Lemma Zdigits2_le (q k : Z) : 0 < q < 2 ^ k -> Zdigits2 q <= k.
Proof.
  intros [Hq Hlt]. destruct q as [|p|p]; try lia. cbn [Zdigits2].
  pose proof (digits2_pos_bounds p) as [Hd _].
  assert (H : 2 ^ (Zpos (digits2_pos p) - 1) < 2 ^ k) by lia.
  destruct (Z.le_gt_cases 0 k) as [Hk | Hk].
  - apply Z.pow_lt_mono_r_iff in H; lia.
  - rewrite (Z.pow_neg_r 2 k) in Hlt by lia. lia.
Qed.

Lemma Zdigits2_mul (a b : positive) :
  Zdigits2 (Zpos (a * b)) <= Zdigits2 (Zpos a) + Zdigits2 (Zpos b).
Proof.
  apply Zdigits2_le. cbn [Zdigits2].
  pose proof (digits2_pos_bounds a) as [_ Ha].
  pose proof (digits2_pos_bounds b) as [_ Hb].
  rewrite Z.pow_add_r, Pos2Z.inj_mul by lia. nia.
Qed.

(** The same bound on the magnitude (number of bits plus exponent). *)
Lemma binary_round_aux_magnitude (mx ex : Z) (lx : location) :
  0 < mx -> - 1074 <= ex -> ex + Zdigits2 mx <= 971 ->
  binary_round_aux Number.prec Number.emax false mx ex lx = S754_zero false
  \/ exists m e,
       binary_round_aux Number.prec Number.emax false mx ex lx = S754_finite false m e
       /\ ex <= e /\ Zdigits2 (Zpos m) + e <= Zdigits2 mx + ex + 1.
Proof.
  intros Hmx Hex Hov.
  destruct (binary_round_aux_bound mx ex lx Hmx Hex Hov) as [Z0 | (m & e & E & He & Hb)];
    [left; exact Z0 | right].
  exists m, e. split; [exact E|]. split; [exact He|].
  destruct mx as [|p|p]; try lia. cbn [Zdigits2] in *.
  pose proof (digits2_pos_bounds p) as [_ Hp].
  pose proof (digits2_pos_bounds m) as [Hm _].
  assert (H : 2 ^ (Zpos (digits2_pos m) - 1 + (e - ex)) < 2 ^ (Zpos (digits2_pos p) + 1)).
  { rewrite !Z.pow_add_r by lia. change (2 ^ 1) with 2.
    assert (0 < 2 ^ (e - ex)) by (apply Z.pow_pos_nonneg; lia). nia. }
  apply Z.pow_lt_mono_r_iff in H; lia.
Qed.

Lemma at_least_1e21_magnitude (m : positive) (e : Z) :
  Zdigits2 (Zpos m) + e <= 69 -> Number.at_least_1e21 m e = false.
Proof.
  cbn [Zdigits2]. intros H. unfold Number.at_least_1e21.
  pose proof (digits2_pos_bounds m) as [_ Hm].
  assert (H69 : 2 ^ 69 < 10 ^ 21) by reflexivity.
  destruct (Z.leb_spec 0 e) as [He | He]; apply Z.leb_gt.
  - assert (Hle : 2 ^ (Zpos (digits2_pos m) + e) <= 2 ^ 69) by (apply Z.pow_le_mono_r; lia).
    rewrite Z.pow_add_r in Hle by lia.
    assert (0 < 2 ^ e) by (apply Z.pow_pos_nonneg; lia). nia.
  - assert (Hle : 2 ^ Zpos (digits2_pos m) <= 2 ^ (69 + - e)) by (apply Z.pow_le_mono_r; lia).
    rewrite Z.pow_add_r in Hle by lia.
    assert (0 < 2 ^ (- e)) by (apply Z.pow_pos_nonneg; lia). nia.
Qed.

Lemma pos_iter_xO (p n : positive) :
  Zpos (Pos.iter xO p n) = Zpos p * 2 ^ Zpos n
  /\ Zpos (digits2_pos (Pos.iter xO p n)) = Zpos (digits2_pos p) + Zpos n.
Proof.
  induction n as [|n [IH1 IH2]] using Pos.peano_ind.
  - cbn [Pos.iter digits2_pos]. change (2 ^ 1) with 2. rewrite Pos2Z.inj_succ. lia.
  - rewrite Pos.iter_succ. cbn [digits2_pos].
    change (Zpos (Pos.iter xO p n)~0) with (2 * Zpos (Pos.iter xO p n)).
    rewrite !Pos2Z.inj_succ, IH1, IH2, Z.pow_succ_r by lia. lia.
Qed.

(** A mantissa of 53 bits at an exponent in range is a double as it is. *)
Lemma binary_round_aux_exact (m : positive) (e : Z) :
  Zpos (digits2_pos m) = 53 -> - 1074 <= e <= 971 ->
  binary_round_aux Number.prec Number.emax false (Zpos m) e loc_Exact = S754_finite false m e.
Proof.
  intros Hd He. unfold binary_round_aux.
  assert (H0 : fexp Number.prec Number.emax (Zdigits2 (Zpos m) + e) - e = 0)
    by (rewrite double_fexp; cbn [Zdigits2]; lia).
  unfold shr_fexp. rewrite H0. cbn [shr shr_record_of_loc shr_m loc_of_shr_record round_nearest_even].
  rewrite H0. cbn [shr shr_record_of_loc shr_m].
  destruct (Z.leb_spec e (Number.emax - Number.prec)) as [_ | H]; [reflexivity|].
  change (Number.emax - Number.prec) with 971 in H. lia.
Qed.

(** An integer below 2^53 is a double: [of_Z] is exact there. *)
Lemma of_Z_small (z : Z) :
  0 < z < 2 ^ 53 ->
  exists m e,
    Number.of_Z z = S754_finite false m e
    /\ Zpos (digits2_pos m) = 53 /\ - 52 <= e <= 0 /\ Zpos m = z * 2 ^ (- e).
Proof.
  intros [Hz Hlt]. destruct z as [|p|p]; try lia.
  unfold Number.of_Z, binary_normalize, binary_round.
  pose proof (digits2_pos_bounds p) as [Hd _].
  assert (Hd53 : Zpos (digits2_pos p) <= 53).
  { assert (H : 2 ^ (Zpos (digits2_pos p) - 1) < 2 ^ 53) by lia.
    apply Z.pow_lt_mono_r_iff in H; lia. }
  rewrite double_fexp. unfold shl_align.
  replace (Z.max (Zpos (digits2_pos p) + 0 - 53) (- 1074) - 0)
    with (Zpos (digits2_pos p) - 53) by lia.
  destruct (Zpos (digits2_pos p) - 53) as [|d|d] eqn:Ed; try lia.
  - exists p, 0. rewrite binary_round_aux_exact by lia.
    change (2 ^ (- 0)) with 1. repeat split; lia.
  - destruct (pos_iter_xO p d) as [Hv Hdg].
    replace (Z.max (Zpos (digits2_pos p) + 0 - 53) (- 1074)) with (Zneg d) by lia.
    exists (Pos.iter xO p d), (Zneg d).
    rewrite binary_round_aux_exact by lia.
    change (- Zneg d) with (Zpos d). repeat split; lia.
Qed.

(** ** The double [(count / total) * 100] for counts below 2^53 *)

Lemma SFdiv_core_binary_53 (m1 m2 : positive) (e1 e2 : Z) :
  Zpos (digits2_pos m1) = 53 -> Zpos (digits2_pos m2) = 53 ->
  - 52 <= e1 <= 0 -> - 52 <= e2 <= 0 ->
  SFdiv_core_binary Number.prec Number.emax (Zpos m1) e1 (Zpos m2) e2
  = (Zpos m1 * 2 ^ 53 / Zpos m2, e1 - e2 - 53,
     new_location (Zpos m2) ((Zpos m1 * 2 ^ 53) mod Zpos m2)).
Proof.
  intros H1 H2 He1 He2. unfold SFdiv_core_binary. cbn [Zdigits2]. cbv zeta.
  rewrite H1, H2, double_fexp.
  replace (Z.min (Z.max (53 + e1 - (53 + e2) - 53) (- 1074)) (e1 - e2))
    with (e1 - e2 - 53) by lia.
  replace (e1 - e2 - (e1 - e2 - 53)) with 53 by lia. cbv iota.
  rewrite Z.shiftl_mul_pow2 by lia.
  unfold Z.div, Z.modulo.
  destruct (Z.div_eucl (Zpos m1 * 2 ^ 53) (Zpos m2)) as [q r]. reflexivity.
Qed.

Lemma div_53 (m1 m2 : positive) (e1 e2 : Z) :
  Zpos (digits2_pos m1) = 53 -> Zpos (digits2_pos m2) = 53 ->
  - 52 <= e1 <= 0 -> - 52 <= e2 <= 0 ->
  Number.div (S754_finite false m1 e1) (S754_finite false m2 e2) = S754_zero false
  \/ exists m e,
       Number.div (S754_finite false m1 e1) (S754_finite false m2 e2) = S754_finite false m e
       /\ e1 - e2 - 53 <= e /\ Zdigits2 (Zpos m) + e <= e1 - e2 + 2.
Proof.
  intros H1 H2 He1 He2. unfold Number.div, SFdiv.
  rewrite SFdiv_core_binary_53 by assumption. change (xorb false false) with false.
  pose proof (digits2_pos_bounds m1) as B1. rewrite H1 in B1.
  pose proof (digits2_pos_bounds m2) as B2. rewrite H2 in B2.
  change (2 ^ (53 - 1)) with 4503599627370496 in *.
  change (2 ^ 53) with 9007199254740992 in *.
  set (q := Zpos m1 * 9007199254740992 / Zpos m2).
  assert (Hq : 0 < q < 2 ^ 54).
  { change (2 ^ 54) with 18014398509481984. split.
    - apply Z.div_str_pos. nia.
    - apply Z.div_lt_upper_bound; nia. }
  pose proof (Zdigits2_le q 54 Hq) as Hd.
  destruct (binary_round_aux_magnitude q (e1 - e2 - 53)
              (new_location (Zpos m2) ((Zpos m1 * 9007199254740992) mod Zpos m2)))
    as [Z0 | (m & e & E & He & Hm)]; try lia.
  - left; exact Z0.
  - right. exists m, e. split; [exact E|]. lia.
Qed.

Lemma mul_100 (m : positive) (e : Z) :
  - 1000 <= e -> Zdigits2 (Zpos m) + e <= 60 ->
  Number.mul (S754_finite false m e) (Number.of_Z 100) = S754_zero false
  \/ exists m' e',
       Number.mul (S754_finite false m e) (Number.of_Z 100) = S754_finite false m' e'
       /\ Zdigits2 (Zpos m') + e' <= Zdigits2 (Zpos m) + e + 8.
Proof.
  intros He Hm.
  change (Number.of_Z 100) with (S754_finite false 7036874417766400 (- 46)).
  unfold Number.mul, SFmul. change (xorb false false) with false.
  pose proof (Zdigits2_mul m 7036874417766400) as Hd.
  change (Zdigits2 (Zpos 7036874417766400)) with 53 in Hd.
  destruct (binary_round_aux_magnitude (Zpos (m * 7036874417766400)) (e + - 46) loc_Exact)
    as [Z0 | (m' & e' & E & He' & Hm')]; try lia.
  - left; exact Z0.
  - right. exists m', e'. split; [exact E|]. lia.
Qed.

(** For counts that a double holds exactly, the percentage is [+0] or a
    positive double below 2^62, far from the 10^21 at which [toFixed]
    changes notation: the cell always shows a decimal. *)
Lemma percent_value_finite (count total : Z) :
  0 <= count < 2 ^ 53 -> 0 < total < 2 ^ 53 ->
  percent_value count total = S754_zero false
  \/ exists m e,
       percent_value count total = S754_finite false m e
       /\ Number.at_least_1e21 m e = false.
Proof.
  intros Hc Ht. unfold percent_value.
  destruct (of_Z_small total Ht) as (m2 & e2 & E2 & D2 & R2 & _). rewrite E2.
  destruct (Z.eq_dec count 0) as [-> | Hc0].
  - left. reflexivity.
  - destruct (of_Z_small count ltac:(lia)) as (m1 & e1 & E1 & D1 & R1 & _). rewrite E1.
    destruct (div_53 m1 m2 e1 e2 D1 D2 R1 R2) as [Z0 | (m & e & E & He & Hm)].
    + left. rewrite Z0. reflexivity.
    + rewrite E.
      destruct (mul_100 m e ltac:(lia) ltac:(lia)) as [Z0 | (m' & e' & E' & Hm')].
      * left; exact Z0.
      * right. exists m', e'. split; [exact E'|].
        apply at_least_1e21_magnitude. lia.
Qed.

Lemma nearest_tenth_nonneg (m : positive) (e : Z) : 0 <= Number.nearest_tenth m e.
Proof.
  unfold Number.nearest_tenth. destruct (Z.leb_spec 0 e).
  - assert (0 < 2 ^ e) by (apply Z.pow_pos_nonneg; lia). nia.
  - assert (0 < 2 ^ (- e)) by (apply Z.pow_pos_nonneg; lia).
    assert (0 < 2 ^ (1 - e)) by (apply Z.pow_pos_nonneg; lia).
    apply Z.div_pos; lia.
Qed.

Lemma displayed_tenths_defined (count total : Z) :
  0 <= count < 2 ^ 53 -> 0 < total < 2 ^ 53 ->
  exists n, displayed_tenths count total = Some n /\ 0 <= n.
Proof.
  intros Hc Ht. unfold displayed_tenths.
  destruct (percent_value_finite count total Hc Ht) as [-> | (m & e & -> & ->)].
  - exists 0. split; [reflexivity | lia].
  - exists (Number.nearest_tenth m e). split; [reflexivity | apply nearest_tenth_nonneg].
Qed.

(** ** Percentage cells *)

Lemma string_app_assoc (a b c : string) : ((a ++ b) ++ c = a ++ b ++ c)%string.
Proof. induction a as [|x a IH]; simpl; [reflexivity | now rewrite IH]. Qed.

Lemma nearest_tenth_spec (m : positive) (e : Z) :
  (inject_Z (Number.nearest_tenth m e) <= 10 * Number.Q_of_finite m e + (1 # 2)
   /\ 10 * Number.Q_of_finite m e + (1 # 2) < inject_Z (Number.nearest_tenth m e) + 1)%Q.
Proof.
  unfold Number.nearest_tenth, Number.Q_of_finite.
  destruct e as [|p|p].
  - change (0 <=? 0) with true; cbv iota.
    unfold Qle, Qlt, Qplus, Qmult, inject_Z; cbn [Qnum Qden].
    rewrite ?Pos2Z.inj_mul. change (2 ^ 0) with 1. split; lia.
  - change (0 <=? Z.pos p) with true; cbv iota.
    unfold Qle, Qlt, Qplus, Qmult, inject_Z; cbn [Qnum Qden].
    rewrite ?Pos2Z.inj_mul, ?Pos2Z.inj_pow.
    set (k := 2 ^ Z.pos p).
    assert (Hk : 0 < k) by (apply Z.pow_pos_nonneg; lia).
    split; nia.
  - change (0 <=? Z.neg p) with false; cbv iota.
    change (- Z.neg p) with (Z.pos p).
    replace (1 - Z.neg p) with (Z.pos p + 1) by lia.
    rewrite Z.pow_add_r by lia. change (2 ^ 1) with 2.
    unfold Qle, Qlt, Qplus, Qmult, inject_Z; cbn [Qnum Qden].
    rewrite ?Pos2Z.inj_mul, ?Pos2Z.inj_pow.
    set (k := 2 ^ Z.pos p).
    assert (Hk : 0 < k) by (apply Z.pow_pos_nonneg; lia).
    pose proof (Z.div_mod (20 * Z.pos m + k) (k * 2) ltac:(lia)) as Hd.
    pose proof (Z.mod_pos_bound (20 * Z.pos m + k) (k * 2) ltac:(lia)) as Hm.
    set (n := (20 * Z.pos m + k) / (k * 2)) in *.
    split; nia.
Qed.

(** The tenths shown are the integer nearest to ten times the double, the
    larger one when two are as near. *)
Lemma displayed_tenths_nearest (count total n : Z) :
  displayed_tenths count total = Some n ->
  exists x : Q,
    double_value (percent_value count total) = Some x
    /\ (inject_Z n <= 10 * x + (1 # 2) /\ 10 * x + (1 # 2) < inject_Z n + 1)%Q.
Proof.
  unfold displayed_tenths.
  destruct (percent_value count total) as [s|s| |[|] m e]; try discriminate.
  - intros [= <-]. exists (0 # 1). split; [reflexivity|].
    split; vm_compute; [discriminate | reflexivity].
  - destruct (Number.at_least_1e21 m e); [discriminate|].
    intros [= <-]. exists (Number.Q_of_finite m e).
    split; [reflexivity | apply nearest_tenth_spec].
Qed.

Lemma percentage_displayed_tenths (count total n : Z) :
  0 < total -> displayed_tenths count total = Some n ->
  percentage count total = Some (percent_text n).
Proof.
  intros Ht. unfold percentage, displayed_tenths.
  destruct (Z.ltb_spec 0 total) as [_|]; [|lia].
  destruct (percent_value count total) as [s|s| |[|] m e]; try discriminate.
  - intros [= <-]. reflexivity.
  - unfold Number.toFixed1.
    destruct (Number.at_least_1e21 m e); [discriminate|].
    intros [= <-]. cbn [option_map]. unfold percent_text.
    change ("" ++ ?x)%string with x.
    now rewrite !string_app_assoc.
Qed.

Lemma fold_left_add (l : list Z) (a : Z) :
  fold_left (fun sum count => sum + count) l a = a + sum l.
Proof.
  unfold sum. revert a; induction l as [|x l IH]; intros a; simpl.
  - lia.
  - rewrite IH, (IH x). lia.
Qed.

Lemma sum_cons (x : Z) (l : list Z) : sum (x :: l) = x + sum l.
Proof. unfold sum at 1; simpl. apply fold_left_add. Qed.

Lemma sum_nonneg (l : list Z) : Forall (fun x => 0 <= x) l -> 0 <= sum l.
Proof.
  induction 1 as [|x l Hx _ IH]; [reflexivity | rewrite sum_cons; lia].
Qed.

Lemma In_le_sum (x : Z) (l : list Z) :
  Forall (fun y => 0 <= y) l -> In x l -> 0 <= x <= sum l.
Proof.
  induction 1 as [|y l Hy Hl IH]; intros Hin; [contradiction|].
  rewrite sum_cons. pose proof (sum_nonneg l Hl).
  destruct Hin as [-> | Hin]; [lia | specialize (IH Hin); lia].
Qed.

Lemma or_string_empty_fallback (s : string) : or_string (Some s) "" = s.
Proof. now destruct s. Qed.

Lemma summary_table_row_of_entry (d : Distribution) (entry : string * Z) :
  In entry d -> In (summary_row (sum (values d)) entry) (rows (summary_table d)).
Proof.
  intros Hin. unfold summary_table; cbn [rows].
  apply in_map. apply sort_In. exact Hin.
Qed.

(** C3 (as amended).  For a distribution of non-negative counts whose total
    is positive (and a double, below 2^53), the percentage of an entry is
    shown, in its table row and in its tooltip alike, as [n / 10] with one
    decimal, where [n] is the integer nearest to ten times the double
    [(count / total) * 100], the larger one when two are as near.  The cells
    are rounded one by one: nothing makes them add up to 100.0. *)
Theorem percentage_cells_round_the_double_to_one_decimal
    (d : Distribution) (disease : string) (count : Z) :
  Forall (fun entry => 0 <= snd entry) d ->
  0 < sum (values d) < 2 ^ 53 ->
  In (disease, count) d ->
  exists n : Z,
    0 <= n
    /\ (exists x : Q,
          double_value (percent_value count (sum (values d))) = Some x
          /\ (inject_Z n <= 10 * x + (1 # 2) /\ 10 * x + (1 # 2) < inject_Z n + 1)%Q)
    /\ (exists row,
          In row (rows (summary_table d))
          /\ row_disease row = disease /\ row_count row = count
          /\ row_percentage row = Some (percent_text n))
    /\ tooltip_label disease count (values d)
       = Some (disease ++ ": " ++ percent_text n ++ " (" ++ Number.string_of_Z count
                 ++ " " ++ affected_trees count ++ ")")%string.
Proof.
  intros Hnonneg Htotal Hin.
  assert (Hcount : 0 <= count <= sum (values d)).
  { apply In_le_sum.
    - unfold values. apply Forall_map. exact Hnonneg.
    - unfold values. change count with (snd (disease, count)). now apply in_map. }
  destruct (displayed_tenths_defined count (sum (values d)) ltac:(lia) Htotal)
    as (n & Hn & Hn0).
  pose proof (percentage_displayed_tenths count (sum (values d)) n ltac:(lia) Hn) as Hp.
  exists n. split; [exact Hn0|]. split; [now apply displayed_tenths_nearest|]. split.
  - exists (summary_row (sum (values d)) (disease, count)).
    split; [now apply summary_table_row_of_entry|].
    cbn [summary_row row_disease row_count row_percentage]. auto.
  - unfold tooltip_label. rewrite or_string_empty_fallback.
    change (fold_left (fun a b => a + b) (values d) 0) with (sum (values d)).
    fold (percentage count (sum (values d))). rewrite Hp. reflexivity.
Qed.

Lemma percentage_cells_round_the_double_to_one_decimal_witness :
  exists n : Z,
    0 <= n
    /\ (exists x : Q,
          double_value (percent_value 5 (sum (values [("Anthracnose", 5); ("Gall Midge", 12); ("Sooty Mould", 1)]%string))) = Some x
          /\ (inject_Z n <= 10 * x + (1 # 2) /\ 10 * x + (1 # 2) < inject_Z n + 1)%Q)
    /\ (exists row,
          In row (rows (summary_table [("Anthracnose", 5); ("Gall Midge", 12); ("Sooty Mould", 1)]%string))
          /\ row_disease row = "Anthracnose"%string /\ row_count row = 5
          /\ row_percentage row = Some (percent_text n))
    /\ tooltip_label "Anthracnose" 5 (values [("Anthracnose", 5); ("Gall Midge", 12); ("Sooty Mould", 1)]%string)
       = Some ("Anthracnose" ++ ": " ++ percent_text n ++ " (" ++ Number.string_of_Z 5
                 ++ " " ++ affected_trees 5 ++ ")")%string.
Proof.
  apply (percentage_cells_round_the_double_to_one_decimal
           [("Anthracnose", 5); ("Gall Midge", 12); ("Sooty Mould", 1)]%string
           "Anthracnose" 5).
  - repeat constructor; simpl; lia.
  - vm_compute. split; reflexivity.
  - simpl. auto.
Defined.

(** C3, as stated, fails: three equal shares are shown as 33.3% each, and
    the cells add up to 99.9. *)
Lemma three_equal_shares_add_up_to_99_9 :
  map row_percentage (rows (summary_table [("A", 1); ("B", 1); ("C", 1)]%string))
  = [Some "33.3%"; Some "33.3%"; Some "33.3%"]%string
  /\ tooltip_label "A" 1 (values [("A", 1); ("B", 1); ("C", 1)]%string)
     = Some "A: 33.3% (1 affected tree)"%string
  /\ sum_of_displayed_tenths [("A", 1); ("B", 1); ("C", 1)]%string = Some 999
  /\ sum_of_displayed_tenths [("A", 1); ("B", 1); ("C", 1)]%string <> Some 1000.
Proof.
  repeat split; try (vm_compute; reflexivity).
  vm_compute. discriminate.
Qed.

(** ** The chart handle *)

Ltac page_fields :=
  cbn [regionalChartInstance chart_registry charts_created chartMessage
       regionalDataSummary treatmentSummary messages requests
       generate_disabled generate_text
       set_chart set_chartMessage set_summary set_treatment set_button
       displayMessage apiCall new_chart].

Lemma destroy_chart_registry (p : Page) :
  at_most_one_chart p -> chart_registry (destroy_chart p) = [].
Proof.
  unfold at_most_one_chart, destroy_chart.
  destruct (chart_registry p) as [|[h c] [|e l]] eqn:E; intros H.
  - destruct (regionalChartInstance p); page_fields; [reflexivity | exact E].
  - rewrite H. page_fields. cbn [filter fst]. now rewrite Nat.eqb_refl.
  - contradiction.
Qed.

Lemma destroy_chart_frame (p : Page) :
  regionalChartInstance (destroy_chart p) = regionalChartInstance p
  /\ charts_created (destroy_chart p) = charts_created p
  /\ chartMessage (destroy_chart p) = chartMessage p
  /\ regionalDataSummary (destroy_chart p) = regionalDataSummary p
  /\ treatmentSummary (destroy_chart p) = treatmentSummary p
  /\ messages (destroy_chart p) = messages p
  /\ requests (destroy_chart p) = requests p
  /\ generate_disabled (destroy_chart p) = generate_disabled p
  /\ generate_text (destroy_chart p) = generate_text p.
Proof.
  unfold destroy_chart. destruct (regionalChartInstance p) eqn:E; page_fields; auto 10.
Qed.

(** What a call of [loadRegionalStatistics] does to the chart registry. *)
Lemma loadRegionalStatistics_registry (dom : Dom) (latitude longitude : string)
    (outcome : ApiOutcome) (p : Page) :
  chart_registry (loadRegionalStatistics dom latitude longitude outcome p)
  = match outcome with
    | Resolved response =>
        if empty_result response then chart_registry (destroy_chart p)
        else if has_canvas dom
             then (charts_created p,
                   chart_config match regional_data response with Some d => d | None => [] end)
                    :: chart_registry (destroy_chart p)
             else chart_registry p
    | Rejected _ => chart_registry (destroy_chart p)
    end.
Proof.
  unfold loadRegionalStatistics, empty_result, renderRegionalChart, renderSummaryTable,
    renderTopTreatments, destroy_chart, chart_config.
  destruct outcome as [[[d|] tt msg]|e]; cbn [regional_data top_treatments message];
    destruct (has_summary dom), (has_treatment dom), (has_canvas dom);
    try destruct (List.length (keys d) =? 0)%nat;
    cbn [negb]; page_fields;
    destruct (regionalChartInstance p); page_fields; reflexivity.
Qed.

Lemma loadRegionalStatistics_instance (dom : Dom) (latitude longitude : string)
    (outcome : ApiOutcome) (p : Page) :
  regionalChartInstance (loadRegionalStatistics dom latitude longitude outcome p)
  = match outcome with
    | Resolved response =>
        if empty_result response then regionalChartInstance p
        else if has_canvas dom then Some (charts_created p)
             else regionalChartInstance p
    | Rejected _ => regionalChartInstance p
    end.
Proof.
  unfold loadRegionalStatistics, empty_result, renderRegionalChart, renderSummaryTable,
    renderTopTreatments, destroy_chart.
  destruct outcome as [[[d|] tt msg]|e]; cbn [regional_data top_treatments message];
    destruct (has_summary dom), (has_treatment dom), (has_canvas dom);
    try destruct (List.length (keys d) =? 0)%nat;
    cbn [negb keys map List.length Nat.eqb]; page_fields;
    destruct (regionalChartInstance p) eqn:E; page_fields; rewrite ?E; reflexivity.
Qed.

Lemma loadRegionalStatistics_at_most_one (dom : Dom) (latitude longitude : string)
    (outcome : ApiOutcome) (p : Page) :
  at_most_one_chart p ->
  at_most_one_chart (loadRegionalStatistics dom latitude longitude outcome p).
Proof.
  intros H. unfold at_most_one_chart.
  rewrite loadRegionalStatistics_registry, loadRegionalStatistics_instance.
  rewrite (destroy_chart_registry p H).
  destruct outcome as [response|e]; [|exact I].
  destruct (empty_result response); [exact I|].
  destruct (has_canvas dom); [reflexivity | exact H].
Qed.

Lemma generate_click_at_most_one (dom : Dom) (latitude longitude : string)
    (outcome : ApiOutcome) (p : Page) :
  at_most_one_chart p ->
  at_most_one_chart (generate_click dom latitude longitude outcome p).
Proof.
  intros H. unfold generate_click.
  destruct (negb (truthy_string (Some latitude)) || negb (truthy_string (Some longitude))).
  - exact H.
  - apply (loadRegionalStatistics_at_most_one dom latitude longitude outcome
             (set_button true "Analyzing..." p)).
    exact H.
Qed.

Lemma run_app (dom : Dom) (clicks1 clicks2 : list Click) (p : Page) :
  run dom (clicks1 ++ clicks2) p = run dom clicks2 (run dom clicks1 p).
Proof. apply fold_left_app. Qed.

Lemma run_at_most_one (dom : Dom) (clicks : list Click) (p : Page) :
  at_most_one_chart p -> at_most_one_chart (run dom clicks p).
Proof.
  revert p; induction clicks as [|c clicks IH]; intros p H; cbn [run fold_left].
  - exact H.
  - apply IH. now apply generate_click_at_most_one.
Qed.

Lemma at_most_one_chart_spec (p : Page) :
  at_most_one_chart p ->
  (List.length (chart_registry p) <= 1)%nat
  /\ forall handle config,
       In (handle, config) (chart_registry p) -> regionalChartInstance p = Some handle.
Proof.
  unfold at_most_one_chart.
  destruct (chart_registry p) as [|[h c] [|e l]]; intros H; [| |contradiction].
  - split; [simpl; lia | intros ? ? []].
  - split; [simpl; lia|]. intros handle config [[= <- <-] | []]. exact H.
Qed.

(** ** The fetch-and-render sequence, field by field *)

Ltac load_cases dom outcome p :=
  unfold loadRegionalStatistics, empty_result, renderRegionalChart, renderSummaryTable,
    renderTopTreatments, destroy_chart;
  let d := fresh "d" in
  destruct outcome as [[[d|] ? ?]|?]; cbn [regional_data top_treatments message];
  destruct (has_summary dom), (has_treatment dom), (has_canvas dom);
  try destruct (List.length (keys d) =? 0)%nat;
  cbn [negb keys map List.length Nat.eqb]; page_fields;
  let E := fresh "E" in
  destruct (regionalChartInstance p) eqn:E; page_fields; rewrite ?E; reflexivity.

Lemma loadRegionalStatistics_requests (dom : Dom) (latitude longitude : string)
    (outcome : ApiOutcome) (p : Page) :
  requests (loadRegionalStatistics dom latitude longitude outcome p)
  = regional_stats_endpoint latitude longitude :: requests p.
Proof. unfold regional_stats_endpoint. load_cases dom outcome p. Qed.

Lemma loadRegionalStatistics_created (dom : Dom) (latitude longitude : string)
    (outcome : ApiOutcome) (p : Page) :
  charts_created (loadRegionalStatistics dom latitude longitude outcome p)
  = match outcome with
    | Resolved response =>
        if empty_result response then charts_created p
        else if has_canvas dom then S (charts_created p) else charts_created p
    | Rejected _ => charts_created p
    end.
Proof. load_cases dom outcome p. Qed.

Lemma loadRegionalStatistics_chartMessage (dom : Dom) (latitude longitude : string)
    (outcome : ApiOutcome) (p : Page) :
  chartMessage (loadRegionalStatistics dom latitude longitude outcome p)
  = match outcome with
    | Resolved response =>
        if empty_result response then or_string (message response) no_trees_found
        else "Fetching data from surrounding 5km..."%string
    | Rejected error_message =>
        ("Failed to load regional data: " ++ template_string error_message)%string
    end.
Proof. load_cases dom outcome p. Qed.

Lemma loadRegionalStatistics_messages (dom : Dom) (latitude longitude : string)
    (outcome : ApiOutcome) (p : Page) :
  messages (loadRegionalStatistics dom latitude longitude outcome p)
  = match outcome with
    | Resolved response =>
        if empty_result response then messages p
        else ("Regional disease risk assessment loaded successfully."%string, false)
               :: messages p
    | Rejected error_message =>
        (or_string error_message "Failed to load regional data.", true) :: messages p
    end.
Proof. load_cases dom outcome p. Qed.

Lemma loadRegionalStatistics_summary (dom : Dom) (latitude longitude : string)
    (outcome : ApiOutcome) (p : Page) :
  regionalDataSummary (loadRegionalStatistics dom latitude longitude outcome p)
  = if has_summary dom then
      match outcome with
      | Resolved response =>
          if empty_result response then None
          else Some (summary_table
                       match regional_data response with Some d => d | None => [] end)
      | Rejected _ => None
      end
    else regionalDataSummary p.
Proof. load_cases dom outcome p. Qed.

Lemma loadRegionalStatistics_treatment (dom : Dom) (latitude longitude : string)
    (outcome : ApiOutcome) (p : Page) :
  treatmentSummary (loadRegionalStatistics dom latitude longitude outcome p)
  = if has_treatment dom then
      match outcome with
      | Resolved response =>
          if empty_result response then []
          else top_treatment_cards
                 match top_treatments response with Some t => t | None => [] end
      | Rejected _ => []
      end
    else treatmentSummary p.
Proof. load_cases dom outcome p. Qed.

Lemma loadRegionalStatistics_button (dom : Dom) (latitude longitude : string)
    (outcome : ApiOutcome) (p : Page) :
  generate_disabled (loadRegionalStatistics dom latitude longitude outcome p)
  = generate_disabled p
  /\ generate_text (loadRegionalStatistics dom latitude longitude outcome p)
     = generate_text p.
Proof. split; load_cases dom outcome p. Qed.

Lemma truthy_string_eqb (s : string) :
  negb (truthy_string (Some s)) = String.eqb s "".
Proof. now destruct s. Qed.

(** C5.  On every page reached from the loaded document by clicks on the
    report button, at most one chart is alive, and it is the one the global
    handle points at.  From such a page a re-render leaves exactly the chart
    it creates (the previous one is destroyed first), and the empty-result
    and the failure path leave none. *)
Theorem at_most_one_chart_instance (dom : Dom) (clicks : list Click) :
  let p := run dom clicks page_on_load in
  (List.length (chart_registry p) <= 1)%nat
  /\ (forall handle config,
         In (handle, config) (chart_registry p) -> regionalChartInstance p = Some handle)
  /\ chart_registry (destroy_chart p) = []
  /\ (forall d,
         chart_registry (renderRegionalChart dom d p)
         = if has_canvas dom then [(charts_created p, chart_config d)] else chart_registry p)
  /\ (forall latitude longitude response,
         empty_result response = true ->
         chart_registry (loadRegionalStatistics dom latitude longitude (Resolved response) p)
         = [])
  /\ (forall latitude longitude error_message,
         chart_registry
           (loadRegionalStatistics dom latitude longitude (Rejected error_message) p)
         = []).
Proof.
  cbv zeta.
  assert (H : at_most_one_chart (run dom clicks page_on_load))
    by (apply run_at_most_one; exact I).
  destruct (at_most_one_chart_spec _ H) as [Hlen Hin].
  pose proof (destroy_chart_registry _ H) as Hd.
  repeat split; auto.
  - intros d. unfold renderRegionalChart.
    destruct (has_canvas dom); cbn [negb]; [|reflexivity].
    unfold new_chart; page_fields. rewrite Hd.
    destruct (destroy_chart_frame (run dom clicks page_on_load)) as (_ & -> & _).
    reflexivity.
  - intros latitude longitude response He.
    rewrite loadRegionalStatistics_registry, He. exact Hd.
  - intros latitude longitude error_message.
    rewrite loadRegionalStatistics_registry. exact Hd.
Qed.

(** C6.  A click on the report button with an empty latitude or longitude
    field shows the validation message and sends nothing; with both fields
    filled in it sends one request, to the statistics endpoint. *)
Theorem validation_before_any_request (dom : Dom) (latitude longitude : string)
    (outcome : ApiOutcome) (p : Page) :
  let p' := generate_click dom latitude longitude outcome p in
  if (String.eqb latitude "" || String.eqb longitude "")%bool
  then p' = displayMessage enter_both true p
       /\ requests p' = requests p
       /\ messages p' = (enter_both, true) :: messages p
  else requests p' = regional_stats_endpoint latitude longitude :: requests p.
Proof.
  cbv zeta. unfold generate_click. rewrite !truthy_string_eqb.
  destruct (String.eqb latitude "" || String.eqb longitude "")%bool.
  - repeat split.
  - page_fields. rewrite loadRegionalStatistics_requests. reflexivity.
Qed.

(** C7.  When the response carries no distribution, or one without keys, the
    status line shows the server's message (the default text when there is
    none, or an empty one), the chart the handle points at is destroyed, no
    chart is created, the summary and treatment containers that exist stay
    cleared, and no message (hence no error) is displayed. *)
Theorem empty_distribution_is_an_empty_result (dom : Dom) (latitude longitude : string)
    (response : Response) (p : Page) :
  regional_data response = None \/ regional_data response = Some [] ->
  let p' := loadRegionalStatistics dom latitude longitude (Resolved response) p in
  chartMessage p'
  = match message response with
    | Some text => if String.eqb text "" then no_trees_found else text
    | None => no_trees_found
    end
  /\ chart_registry p' = chart_registry (destroy_chart p)
  /\ (forall handle,
         regionalChartInstance p = Some handle ->
         ~ In handle (map fst (chart_registry p')))
  /\ charts_created p' = charts_created p
  /\ regionalDataSummary p' = (if has_summary dom then None else regionalDataSummary p)
  /\ treatmentSummary p' = (if has_treatment dom then [] else treatmentSummary p)
  /\ messages p' = messages p.
Proof.
  intros Hempty. cbv zeta.
  assert (He : empty_result response = true)
    by (unfold empty_result; destruct Hempty as [-> | ->]; reflexivity).
  rewrite loadRegionalStatistics_chartMessage, loadRegionalStatistics_registry,
    loadRegionalStatistics_created, loadRegionalStatistics_summary,
    loadRegionalStatistics_treatment, loadRegionalStatistics_messages, He.
  repeat split.
  - unfold or_string, truthy_string.
    destruct (message response) as [[|c text]|]; reflexivity.
  - intros handle Hh. unfold destroy_chart. rewrite Hh. page_fields.
    rewrite in_map_iff. intros ([h c] & <- & Hin).
    apply filter_In in Hin. cbn [fst] in Hin.
    destruct Hin as [_ Hin]. now rewrite Nat.eqb_refl in Hin.
Qed.

Lemma empty_distribution_is_an_empty_result_witness :
  let response := {| regional_data := Some []; top_treatments := None;
                     message := Some "No diseased trees near this point."%string |} in
  let p' :=
    loadRegionalStatistics
      {| has_canvas := true; has_summary := true; has_treatment := true |}
      "12.34" "56.78" (Resolved response) page_on_load in
  chartMessage p' = "No diseased trees near this point."%string
  /\ chart_registry p' = chart_registry (destroy_chart page_on_load)
  /\ (forall handle,
         regionalChartInstance page_on_load = Some handle ->
         ~ In handle (map fst (chart_registry p')))
  /\ charts_created p' = charts_created page_on_load
  /\ regionalDataSummary p' = None
  /\ treatmentSummary p' = []
  /\ messages p' = messages page_on_load.
Proof.
  exact (empty_distribution_is_an_empty_result
           {| has_canvas := true; has_summary := true; has_treatment := true |}
           "12.34" "56.78"
           {| regional_data := Some []; top_treatments := None;
              message := Some "No diseased trees near this point."%string |}
           page_on_load (or_intror eq_refl)).
Defined.

(** ** Distributions whose counts are all zero *)

Lemma sum_all_zero (l : list Z) : Forall (fun x => x = 0) l -> sum l = 0.
Proof.
  induction 1 as [|x l Hx _ IH]; [reflexivity | rewrite sum_cons; lia].
Qed.

(** C4 (as amended).  A distribution that has keys, all with count zero, is
    not an empty result: every row of its summary table shows "0%", and the
    flow goes on as for any distribution with keys.  The table is written
    (when its container exists), a chart is created (when the canvas
    exists), the status line keeps the text set before the request, and the
    success message is displayed. *)
Theorem all_zero_distribution_is_rendered (dom : Dom) (latitude longitude : string)
    (top : option (list TopTreatment)) (text : option string)
    (d : Distribution) (p : Page) :
  d <> [] ->
  Forall (fun entry => snd entry = 0) d ->
  let response := {| regional_data := Some d; top_treatments := top; message := text |} in
  let p' := loadRegionalStatistics dom latitude longitude (Resolved response) p in
  Forall (fun row => row_percentage row = Some "0%"%string) (rows (summary_table d))
  /\ regionalDataSummary p'
     = (if has_summary dom then Some (summary_table d) else regionalDataSummary p)
  /\ chart_registry p'
     = (if has_canvas dom
        then (charts_created p, chart_config d) :: chart_registry (destroy_chart p)
        else chart_registry p)
  /\ charts_created p'
     = (if has_canvas dom then S (charts_created p) else charts_created p)
  /\ chartMessage p' = "Fetching data from surrounding 5km..."%string
  /\ messages p'
     = ("Regional disease risk assessment loaded successfully."%string, false)
         :: messages p.
Proof.
  intros Hkeys Hzero. cbv zeta.
  assert (He : empty_result
                 {| regional_data := Some d; top_treatments := top; message := text |}
               = false).
  { unfold empty_result; cbn [regional_data]. destruct d; [congruence | reflexivity]. }
  rewrite loadRegionalStatistics_chartMessage, loadRegionalStatistics_registry,
    loadRegionalStatistics_created, loadRegionalStatistics_summary,
    loadRegionalStatistics_messages, He.
  cbn [regional_data]. repeat split.
  unfold summary_table; cbn [rows].
  apply Forall_map, Forall_forall. intros [disease count] _.
  cbn [summary_row row_percentage]. unfold percentage.
  rewrite sum_all_zero; [reflexivity|].
  unfold values. apply Forall_map. exact Hzero.
Qed.

Lemma all_zero_distribution_is_rendered_witness :
  let d := [("Anthracnose", 0); ("Gall Midge", 0)]%string in
  let dom := {| has_canvas := true; has_summary := true; has_treatment := true |} in
  let response := {| regional_data := Some d; top_treatments := None; message := None |} in
  let p' := loadRegionalStatistics dom "12.34" "56.78" (Resolved response) page_on_load in
  Forall (fun row => row_percentage row = Some "0%"%string) (rows (summary_table d))
  /\ regionalDataSummary p' = Some (summary_table d)
  /\ chart_registry p' = [(0%nat, chart_config d)]
  /\ charts_created p' = 1%nat
  /\ chartMessage p' = "Fetching data from surrounding 5km..."%string
  /\ messages p'
     = [("Regional disease risk assessment loaded successfully."%string, false)].
Proof.
  apply (all_zero_distribution_is_rendered
           {| has_canvas := true; has_summary := true; has_treatment := true |}
           "12.34" "56.78" None None
           [("Anthracnose", 0); ("Gall Midge", 0)]%string page_on_load).
  - discriminate.
  - repeat constructor.
Defined.

(** C4, as stated, fails: for the distribution {A: 0} the flow does not stop
    at the empty-result message; it creates a chart and reports success. *)
Lemma zero_count_distribution_gets_a_chart :
  let dom := {| has_canvas := true; has_summary := true; has_treatment := true |} in
  let response :=
    {| regional_data := Some [("A", 0)]%string; top_treatments := None; message := None |} in
  let p' := loadRegionalStatistics dom "12.34" "56.78" (Resolved response) page_on_load in
  sum (values [("A", 0)]%string) = 0
  /\ chart_registry p' = [(0%nat, chart_config [("A", 0)]%string)]
  /\ chartMessage p' <> no_trees_found
  /\ messages p'
     = [("Regional disease risk assessment loaded successfully."%string, false)].
Proof.
  cbv zeta. repeat split. vm_compute. discriminate.
Qed.

(** ** Severity cell *)

(** C9.  The color of a row's severity cell is a function of the severity
    value the cell shows: red for a rank of 3 or more, orange for a rank of
    2, green for the ranks 1 and 0, and green as well for "N/A" and for any
    other value that is not a number. *)
Theorem severity_color_by_rank :
  (forall (d : Distribution) (row : SummaryRow),
      In row (rows (summary_table d)) -> row_color row = severity_color (row_severity row))
  /\ (forall rank : Z,
         severity_color (Rank rank)
         = if 3 <=? rank then "red"%string
           else if 2 <=? rank then "orange"%string else "green"%string)
  /\ severity_color (Rank 3) = "red"%string
  /\ severity_color (Rank 2) = "orange"%string
  /\ severity_color (Rank 1) = "green"%string
  /\ severity_color (Rank 0) = "green"%string
  /\ severity_color NA = "green"%string
  /\ (forall key, severity_color (InheritedMember key) = "green"%string).
Proof.
  repeat split.
  intros d row Hin. unfold summary_table in Hin; cbn [rows] in Hin.
  apply in_map_iff in Hin. destruct Hin as ([disease count] & <- & _). reflexivity.
Qed.

(** ** Treatment placeholders *)

(** A treatment field as [||] sees it: the empty string counts as missing. *)
Lemma or_string_empty (fallback : string) :
  or_string (Some ""%string) fallback = or_string None fallback.
Proof. reflexivity. Qed.

Lemma or_string_text (v : option string) (placeholder : string) :
  or_string v placeholder = treatment_text v placeholder.
Proof. destruct v as [[|c s]|]; reflexivity. Qed.

Lemma or_string_missing_if_empty (v : option string) (placeholder : string) :
  or_string (missing_if_empty v) placeholder = or_string v placeholder.
Proof. destruct v as [[|c s]|]; reflexivity. Qed.

Lemma treatment_cards_missing_if_empty (index : nat) (topTreatments : list TopTreatment) :
  treatment_cards_from index (map threat_missing_if_empty topTreatments)
  = treatment_cards_from index topTreatments.
Proof.
  revert index; induction topTreatments as [|threat rest IH]; intros index; simpl.
  - reflexivity.
  - rewrite IH. f_equal. unfold treatment_card, threat_missing_if_empty.
    cbn [threat_name threat_count organic chemical].
    now rewrite !or_string_missing_if_empty.
Qed.

Lemma guide_rows_cells (diseases : list Disease) :
  guide_rows diseases
  = map (fun disease =>
           {| guide_name := name disease;
              guide_organic := treatment_text (organic_treatment disease) no_organic;
              guide_chemical := treatment_text (chemical_treatment disease) no_chemical |})
      (filter (fun disease => negb (String.eqb (name disease) "Healthy")) diseases).
Proof.
  unfold guide_rows.
  induction diseases as [|disease rest IH]; cbn [flat_map filter map]; [reflexivity|].
  rewrite IH. destruct (String.eqb (name disease) "Healthy"); cbn [negb map app];
    [reflexivity|].
  now rewrite !or_string_text.
Qed.

Lemma treatment_cards_from_cells (index : nat) (topTreatments : list TopTreatment) :
  map (fun card => (card_organic card, card_chemical card))
    (treatment_cards_from index topTreatments)
  = map (fun threat =>
           (treatment_text (organic threat) no_organic,
            treatment_text (chemical threat) no_chemical))
      topTreatments.
Proof.
  revert index; induction topTreatments as [|threat rest IH]; intros index;
    cbn [treatment_cards_from map]; [reflexivity|].
  rewrite IH. cbn [treatment_card card_organic card_chemical].
  now rewrite !or_string_text.
Qed.

(** C10.  In the static guide and on the treatment cards a treatment cell
    shows the field when it is a non-empty string and the placeholder
    otherwise: an empty string is shown exactly as a missing field is.
    This holds of every row of the guide (one for each disease of the catalog
    but 'Healthy') and of every card rendered (one for each top threat). *)
Theorem empty_treatment_is_shown_as_missing :
  (forall diseases : list Disease,
      guide_rows diseases
      = map (fun disease =>
               {| guide_name := name disease;
                  guide_organic := treatment_text (organic_treatment disease) no_organic;
                  guide_chemical :=
                    treatment_text (chemical_treatment disease) no_chemical |})
          (filter (fun disease => negb (String.eqb (name disease) "Healthy")) diseases))
  /\ (forall topTreatments : list TopTreatment,
         map (fun card => (card_organic card, card_chemical card))
           (top_treatment_cards topTreatments)
         = map (fun threat =>
                  (treatment_text (organic threat) no_organic,
                   treatment_text (chemical threat) no_chemical))
             topTreatments)
  /\ (forall diseases : list Disease,
         guide_rows (map disease_missing_if_empty diseases) = guide_rows diseases)
  /\ (forall topTreatments : list TopTreatment,
         top_treatment_cards (map threat_missing_if_empty topTreatments)
         = top_treatment_cards topTreatments)
  /\ (forall placeholder : string,
         treatment_text None placeholder = placeholder
         /\ treatment_text (Some ""%string) placeholder = placeholder
         /\ forall c text,
              treatment_text (Some (String c text)) placeholder = String c text)
  /\ no_organic = "No specific organic treatment recorded."%string
  /\ no_chemical = "No specific chemical treatment recorded."%string.
Proof.
  split; [exact guide_rows_cells|]. split; [|split; [|split; [|repeat split]]].
  - intros topTreatments. unfold top_treatment_cards.
    destruct topTreatments as [|threat rest]; [reflexivity|].
    cbn [List.length Nat.eqb]. apply treatment_cards_from_cells.
  - intros diseases. unfold guide_rows.
    induction diseases as [|disease rest IH]; cbn [map flat_map]; [reflexivity|].
    rewrite IH. f_equal. unfold disease_missing_if_empty.
    cbn [name organic_treatment chemical_treatment].
    now rewrite !or_string_missing_if_empty.
  - intros topTreatments. unfold top_treatment_cards.
    rewrite length_map, treatment_cards_missing_if_empty. reflexivity.
Qed.

(** C1.  The row of 'Healthy', which the index maps to rank 0, shows "N/A":
    the rank 0 is falsy, and [||] replaces it. *)
Theorem healthy_row_shows_NA (count totalTrees : Z) :
  own_property DISEASE_SEVERITY_INDEX "Healthy" = Some 0
  /\ row_severity (summary_row totalTrees ("Healthy"%string, count)) = NA
  /\ map (fun row => (row_disease row, row_severity row))
       (rows (summary_table [("Healthy"%string, count)]))
     = [("Healthy"%string, NA)].
Proof. repeat split. Qed.

(** C2.  A farm whose latitude or longitude is the number 0 has both
    coordinates and is left out of the drop-down: alone in the response, it
    leaves the selector disabled on the "no farms" placeholder. *)
Theorem farm_at_coordinate_zero_is_left_out (farm_name : string) (coordinate : spec_float)
    (savedFarms : list Farm) (farmSelect : FarmSelect) :
  loadFarmLocations
    (FarmsOk [ {| farm_name := farm_name;
                  latitude := Some (Number.of_Z 0);
                  longitude := Some coordinate |} ])
    savedFarms farmSelect
  = ([], {| options := [Placeholder "-- No Geo-tagged Farms Found --"];
            disabled := true;
            change_listener := change_listener farmSelect |})
  /\ loadFarmLocations
       (FarmsOk [ {| farm_name := farm_name;
                     latitude := Some coordinate;
                     longitude := Some (Number.of_Z 0) |} ])
       savedFarms farmSelect
     = ([], {| options := [Placeholder "-- No Geo-tagged Farms Found --"];
               disabled := true;
               change_listener := change_listener farmSelect |}).
Proof.
  split; [reflexivity|].
  unfold loadFarmLocations, has_coordinates; cbn [filter latitude longitude truthy_number].
  change (Number.truthy (Number.of_Z 0)) with false.
  rewrite andb_false_r. reflexivity.
Qed.

(** ** Location selector *)

Lemma has_coordinates_spec (farm : Farm) :
  has_coordinates farm = true
  <-> exists x y,
        latitude farm = Some x /\ longitude farm = Some y
        /\ Number.truthy x = true /\ Number.truthy y = true.
Proof.
  unfold has_coordinates, truthy_number. split.
  - destruct (latitude farm) as [x|], (longitude farm) as [y|];
      intros H; try discriminate.
    + apply andb_prop in H. exists x, y. tauto.
    + apply andb_prop in H. destruct H; discriminate.
  - intros (x & y & -> & -> & -> & ->). reflexivity.
Qed.

Lemma truthy_spec (x : spec_float) :
  Number.truthy x = true <-> x <> S754_nan /\ forall s, x <> S754_zero s.
Proof.
  destruct x; cbn [Number.truthy]; split; try discriminate; try (intros _; split; congruence).
  - intros [_ H]. now elim (H s).
  - intros [H _]. now elim H.
Qed.

(** X2.  The farms kept in [savedFarms], and offered in a drop-down that held no
    farm before, are the farms of the response whose latitude and longitude
    are both numbers other than 0 and NaN; they are kept, and offered after
    the options the drop-down had, in the order of the response. *)
Theorem offered_farms_have_truthy_coordinates
    (farms savedFarms0 : list Farm) (farmSelect : FarmSelect) (farm : Farm) :
  (forall f, ~ In (FarmOption f) (options farmSelect)) ->
  let result := loadFarmLocations (FarmsOk farms) savedFarms0 farmSelect in
  let offered :=
    In farm farms
    /\ exists x y,
         latitude farm = Some x /\ longitude farm = Some y
         /\ (x <> S754_nan /\ forall s, x <> S754_zero s)
         /\ (y <> S754_nan /\ forall s, y <> S754_zero s) in
  (In farm (fst result) <-> offered)
  /\ (In (FarmOption farm) (options (snd result)) <-> offered)
  /\ (fst result <> [] ->
      options (snd result) = options farmSelect ++ map FarmOption (fst result))
  /\ fst result = filter has_coordinates farms.
Proof.
  intros Hnone. cbv zeta.
  assert (Hkept : In farm (filter has_coordinates farms)
                  <-> In farm farms
                      /\ exists x y,
                           latitude farm = Some x /\ longitude farm = Some y
                           /\ (x <> S754_nan /\ forall s, x <> S754_zero s)
                           /\ (y <> S754_nan /\ forall s, y <> S754_zero s)).
  { rewrite filter_In, has_coordinates_spec. split.
    - intros [Hin (x & y & Hx & Hy & Tx & Ty)]. split; [exact Hin|].
      exists x, y. rewrite <- !truthy_spec. auto.
    - intros [Hin (x & y & Hx & Hy & Tx & Ty)]. split; [exact Hin|].
      exists x, y. rewrite !truthy_spec. auto. }
  unfold loadFarmLocations.
  destruct (filter has_coordinates farms) as [|f0 kept] eqn:E;
    cbn [List.length Nat.eqb fst snd options].
  - split; [exact Hkept|]. split; [|split; [congruence | reflexivity]].
    rewrite <- Hkept. cbn [In]. split; [intros [H | []]; discriminate | intros []].
  - split; [exact Hkept|]. split; [|split; reflexivity].
    rewrite <- Hkept, in_app_iff, in_map_iff. split.
    + intros [H | (f & [= ->] & H)]; [now elim (Hnone farm) | exact H].
    + intros H. right. exists farm. auto.
Qed.

Lemma offered_farms_have_truthy_coordinates_witness :
  let farm := {| farm_name := "North plot"; latitude := Some (Number.of_Z 12);
                 longitude := Some (Number.of_Z 77) |} in
  let result :=
    loadFarmLocations
      (FarmsOk [ {| farm_name := "No fix"; latitude := None; longitude := None |}; farm ])
      []
      {| options := [Placeholder "-- Select a farm --"]; disabled := false;
         change_listener := false |} in
  In farm (fst result) /\ In (FarmOption farm) (options (snd result)).
Proof.
  cbv zeta.
  pose proof (offered_farms_have_truthy_coordinates
                [ {| farm_name := "No fix"; latitude := None; longitude := None |};
                  {| farm_name := "North plot"; latitude := Some (Number.of_Z 12);
                     longitude := Some (Number.of_Z 77) |} ]
                []
                {| options := [Placeholder "-- Select a farm --"]; disabled := false;
                   change_listener := false |}
                {| farm_name := "North plot"; latitude := Some (Number.of_Z 12);
                   longitude := Some (Number.of_Z 77) |}) as H.
  cbv zeta in H.
  destruct H as (H1 & H2 & _).
  - intros f [H | []]. discriminate.
  - vm_compute. auto.
Defined.

(** X3.  After [loadFarmLocations], whatever the request gave, a drop-down that
    was enabled, without farms and without a change listener is disabled
    exactly when it offers no farm, and listens for changes exactly when it
    offers one. *)
Theorem farm_select_enabled_iff_it_offers_a_farm
    (outcome : FarmsOutcome) (savedFarms0 : list Farm) (farmSelect : FarmSelect) :
  disabled farmSelect = false ->
  change_listener farmSelect = false ->
  (forall f, ~ In (FarmOption f) (options farmSelect)) ->
  let select := snd (loadFarmLocations outcome savedFarms0 farmSelect) in
  (disabled select = true <-> forall f, ~ In (FarmOption f) (options select))
  /\ (change_listener select = true <-> exists f, In (FarmOption f) (options select)).
Proof.
  intros Hen Hno Hnone. cbv zeta. unfold loadFarmLocations.
  destruct outcome as [farms|].
  - destruct (filter has_coordinates farms) as [|f0 kept];
      cbn [List.length Nat.eqb snd options disabled change_listener].
    + rewrite Hno. split.
      * split; [intros _ f [H | []]; discriminate | reflexivity].
      * split; [discriminate | intros (f & [H | []]); discriminate].
    + rewrite Hen. split.
      * split; [discriminate|]. intros H. elim (H f0).
        apply in_or_app. right. now left.
      * split; [|reflexivity]. intros _. exists f0.
        apply in_or_app. right. now left.
  - cbn [snd options disabled change_listener]. rewrite Hno. split.
    + split; [intros _ f [H | []]; discriminate | reflexivity].
    + split; [discriminate | intros (f & [H | []]); discriminate].
Qed.

Lemma farm_select_enabled_iff_it_offers_a_farm_witness :
  let select :=
    snd (loadFarmLocations FarmsThrow []
           {| options := [Placeholder "-- Select a farm --"]; disabled := false;
              change_listener := false |}) in
  (disabled select = true <-> forall f, ~ In (FarmOption f) (options select))
  /\ (change_listener select = true <-> exists f, In (FarmOption f) (options select)).
Proof.
  apply (farm_select_enabled_iff_it_offers_a_farm FarmsThrow []
           {| options := [Placeholder "-- Select a farm --"]; disabled := false;
              change_listener := false |}).
  - reflexivity.
  - reflexivity.
  - intros f [H | []]. discriminate.
Defined.

(** ** Static guide and treatment cards *)

Lemma or_string_nonempty (v : option string) (fallback : string) :
  fallback <> ""%string -> or_string v fallback <> ""%string.
Proof. destruct v as [[|c s]|]; simpl; congruence. Qed.

Lemma guide_rows_spec (diseases : list Disease) :
  map guide_name (guide_rows diseases)
  = filter (fun n => negb (String.eqb n "Healthy")) (map name diseases)
  /\ ~ In "Healthy"%string (map guide_name (guide_rows diseases))
  /\ (List.length (guide_rows diseases) <= List.length diseases)%nat
  /\ Forall (fun row => guide_organic row <> ""%string /\ guide_chemical row <> ""%string)
       (guide_rows diseases).
Proof.
  assert (Hnames : map guide_name (guide_rows diseases)
                   = filter (fun n => negb (String.eqb n "Healthy")) (map name diseases)).
  { unfold guide_rows. induction diseases as [|disease rest IH]; cbn [flat_map map filter].
    - reflexivity.
    - rewrite map_app, IH. destruct (String.eqb (name disease) "Healthy"); reflexivity. }
  split; [exact Hnames|]. split; [|split].
  - rewrite Hnames, filter_In. intros [_ H]. discriminate.
  - rewrite <- (length_map guide_name), Hnames, <- (length_map name diseases).
    apply filter_length_le.
  - unfold guide_rows. apply Forall_flat_map, Forall_forall. intros disease _.
    destruct (String.eqb (name disease) "Healthy"); constructor; [|constructor].
    cbn [guide_organic guide_chemical].
    split; apply or_string_nonempty; discriminate.
Qed.

Lemma treatment_cards_from_spec (index : nat) (topTreatments : list TopTreatment) :
  map card_name (treatment_cards_from index topTreatments) = map threat_name topTreatments
  /\ map card_count (treatment_cards_from index topTreatments)
     = map threat_count topTreatments
  /\ map card_rank (treatment_cards_from index topTreatments)
     = map Z.of_nat (seq (S index) (List.length topTreatments)).
Proof.
  revert index; induction topTreatments as [|threat rest IH]; intros index;
    cbn [treatment_cards_from map List.length seq].
  - auto.
  - destruct (IH (S index)) as (-> & -> & ->).
    cbn [treatment_card card_name card_count card_rank].
    repeat split. f_equal. lia.
Qed.

(** X7.  The action plan has one card for each top threat, in the order of the
    response; the cards are numbered 1, 2, ... and no treatment cell is
    empty. *)
Theorem one_card_per_threat_in_rank_order (topTreatments : list TopTreatment) :
  map card_name (top_treatment_cards topTreatments) = map threat_name topTreatments
  /\ map card_count (top_treatment_cards topTreatments) = map threat_count topTreatments
  /\ map card_rank (top_treatment_cards topTreatments)
     = map Z.of_nat (seq 1 (List.length topTreatments))
  /\ Forall (fun card => card_organic card <> ""%string /\ card_chemical card <> ""%string)
       (top_treatment_cards topTreatments).
Proof.
  unfold top_treatment_cards.
  destruct topTreatments as [|threat rest]; [cbn; auto|].
  cbn [List.length Nat.eqb].
  destruct (treatment_cards_from_spec 0 (threat :: rest)) as (H1 & H2 & H3).
  repeat split; try assumption.
  clear. generalize 0%nat. induction (threat :: rest) as [|t l IH]; intros index;
    cbn [treatment_cards_from]; constructor; [|apply IH].
  cbn [treatment_card card_organic card_chemical].
  split; apply or_string_nonempty; discriminate.
Qed.

Lemma treatment_cards_from_trees (index : nat) (topTreatments : list TopTreatment) :
  map card_trees (treatment_cards_from index topTreatments)
  = map (fun threat =>
           if threat_count threat =? 1 then "affected tree"%string
           else "affected trees"%string)
      topTreatments.
Proof.
  revert index; induction topTreatments as [|threat rest IH]; intros index;
    cbn [treatment_cards_from map]; [reflexivity|].
  rewrite IH. cbn [treatment_card card_trees]. unfold affected_trees.
  destruct (threat_count threat =? 1); reflexivity.
Qed.

(** X8.  The tooltip of a slice reads "label: percentage (count affected
    tree)" for a count of exactly 1 and "... affected trees)" for every
    other count, 0 included; and every card of the action plan writes
    "affected tree" for a threat with a count of exactly 1 and "affected
    trees" for any other. *)
Theorem singular_only_for_one_tree :
  (forall (label : string) (raw : Z) (data : list Z),
      tooltip_label label raw data
      = option_map
          (fun pct =>
             (label ++ ": " ++ pct ++ " (" ++ Number.string_of_Z raw ++ " "
                ++ (if Z.eqb raw 1 then "affected tree" else "affected trees") ++ ")")%string)
          (percentage raw (sum data)))
  /\ (forall topTreatments : list TopTreatment,
         map card_trees (top_treatment_cards topTreatments)
         = map (fun threat =>
                  if threat_count threat =? 1 then "affected tree"%string
                  else "affected trees"%string)
             topTreatments).
Proof.
  split.
  - intros label raw data. unfold tooltip_label. rewrite or_string_empty_fallback.
    change (fold_left (fun a b => a + b) data 0) with (sum data).
    fold (percentage raw (sum data)). unfold affected_trees.
    destruct (percentage raw (sum data)) as [pct|]; cbn [option_map]; [|reflexivity].
    destruct (raw =? 1); reflexivity.
  - intros topTreatments. unfold top_treatment_cards.
    destruct topTreatments as [|threat rest]; [reflexivity|].
    cbn [List.length Nat.eqb]. apply treatment_cards_from_trees.
Qed.

(** ** Chart configuration and colors *)

Lemma combine_keys_values (d : Distribution) : combine (keys d) (values d) = d.
Proof.
  unfold keys, values. induction d as [|[k v] d IH]; cbn [map combine fst snd].
  - reflexivity.
  - now rewrite IH.
Qed.

(** X9.  With a canvas, [renderRegionalChart] leaves one new chart under the
    global handle, besides nothing but what [destroy] left; its labels and
    its data, taken pairwise, are the entries of the distribution, it has
    one color for each entry, and its title carries the sum of its data.
    Without a canvas the page is left as it is. *)
Theorem chart_slices_are_the_entries (dom : Dom) (d : Distribution) (p : Page) :
  if has_canvas dom then
    exists config,
      chart_registry (renderRegionalChart dom d p)
      = (charts_created p, config) :: chart_registry (destroy_chart p)
      /\ regionalChartInstance (renderRegionalChart dom d p) = Some (charts_created p)
      /\ charts_created (renderRegionalChart dom d p) = S (charts_created p)
      /\ combine (chart_labels config) (chart_data config) = d
      /\ List.length (chart_colors config) = List.length d
      /\ chart_title config
         = ("Regional Disease Distribution (Total Affected Trees: "
              ++ Number.string_of_Z (sum (chart_data config)) ++ ")")%string
  else renderRegionalChart dom d p = p.
Proof.
  unfold renderRegionalChart. destruct (has_canvas dom); cbn [negb]; [|reflexivity].
  destruct (destroy_chart_frame p) as (_ & Hc & _).
  eexists. unfold new_chart; page_fields. rewrite Hc.
  split; [reflexivity|]. split; [reflexivity|]. split; [reflexivity|].
  cbn [chart_labels chart_data chart_colors chart_title].
  split; [apply combine_keys_values|]. split; [|reflexivity].
  unfold keys. now rewrite !length_map.
Qed.

Lemma own_property_In {A : Type} (o : ObjectLiteral A) (key : string) (v : A) :
  own_property o key = Some v -> In (key, v) o.
Proof.
  induction o as [|[k w] o IH]; cbn [own_property]; [discriminate|].
  destruct (String.eqb_spec k key) as [-> | _].
  - intros [= ->]. now left.
  - intros H. right. now apply IH.
Qed.

Lemma own_property_keys {A : Type} (o : ObjectLiteral A) (key : string) :
  (exists v, own_property o key = Some v) <-> In key (map fst o).
Proof.
  induction o as [|[k w] o IH]; cbn [own_property map fst In].
  - split; [intros [v H]; discriminate | intros []].
  - destruct (String.eqb_spec k key) as [-> | Hne].
    + split; [now left | intros _; now exists w].
    + rewrite IH. split; [now right | intros [H | H]; [contradiction | exact H]].
Qed.

(** X10.  A disease that has a color of its own in the color map gets that color,
    which is never empty, whatever the fallback; a name that is not in the
    map gets the fallback, unless it names a member of [Object.prototype]. *)
Theorem mapped_disease_keeps_its_color (label fallback : string) :
  match own_property DISEASE_COLOR_MAP label with
  | Some css => color_or label fallback = ColorText css /\ css <> ""%string
  | None =>
      color_or label fallback
      = if inherited label then ColorInherited label else ColorText fallback
  end.
Proof.
  unfold color_or, get.
  destruct (own_property DISEASE_COLOR_MAP label) as [css|] eqn:E.
  - apply own_property_In in E.
    assert (H : Forall (fun entry => (String.length (snd entry) =? 0)%nat = false)
                  DISEASE_COLOR_MAP) by (repeat constructor).
    rewrite Forall_forall in H. specialize (H _ E). cbn [snd] in H. rewrite H.
    split; [reflexivity|]. intros ->. discriminate.
  - destruct (inherited label); reflexivity.
Qed.

(** X11.  The two tables agree: a disease has a severity rank that the table shows
    (a rank other than 0) exactly when it has a color of its own. *)
Theorem ranked_diseases_are_the_colored_ones (disease : string) :
  (exists rank, severity_of disease = Rank rank)
  <-> (exists css, own_property DISEASE_COLOR_MAP disease = Some css).
Proof.
  rewrite own_property_keys.
  assert (Hsev : (exists rank, severity_of disease = Rank rank)
                 <-> In disease
                       (map fst (filter (fun entry => negb (snd entry =? 0))
                                   DISEASE_SEVERITY_INDEX))).
  { unfold severity_of, get.
    destruct (own_property DISEASE_SEVERITY_INDEX disease) as [rank|] eqn:E.
    - pose proof (own_property_In _ _ _ E) as Hin.
      destruct (Z.eqb_spec rank 0) as [-> | Hne].
      + split; [intros [r H]; discriminate|].
        intros H. apply in_map_iff in H. destruct H as ([k v] & <- & H).
        apply filter_In in H. cbn [fst snd] in *. destruct H as [H Hv].
        cbn [DISEASE_SEVERITY_INDEX In] in Hin, H.
        repeat (destruct H as [H | H];
                [injection H as <- <-;
                 repeat (destruct Hin as [Hin | Hin]; [discriminate Hin || discriminate Hv|]);
                 contradiction|]).
        contradiction.
      + split; [intros _ | intros _; now exists rank].
        apply in_map_iff. exists (disease, rank). split; [reflexivity|].
        apply filter_In. split; [exact Hin|]. cbn [snd].
        destruct (Z.eqb_spec rank 0); [contradiction | reflexivity].
    - split; [destruct (inherited disease); intros [r H]; discriminate|].
      intros H. apply in_map_iff in H. destruct H as ([k v] & <- & H).
      apply filter_In in H. destruct H as [H _].
      assert (Hk : exists v', own_property DISEASE_SEVERITY_INDEX k = Some v').
      { apply own_property_keys. apply in_map_iff. exists (k, v). auto. }
      cbn [fst] in E. destruct Hk as [v' Hk]. congruence. }
  rewrite Hsev. cbn. intuition.
Qed.

(** ** Summary table: total row and ties *)



Lemma filter_sort_insert (count : Z) (x : string * Z) (l : list (string * Z)) :
  filter (fun entry => snd entry =? count) (sort_insert by_count_descending x l)
  = filter (fun entry => snd entry =? count) (x :: l).
Proof.
  induction l as [|y l IH]; cbn [sort_insert]; [reflexivity|].
  unfold by_count_descending at 1.
  destruct (Z.leb_spec (snd y - snd x) 0) as [Hle | Hgt]; [reflexivity|].
  cbn [filter] in *. rewrite IH.
  destruct (Z.eqb_spec (snd x) count), (Z.eqb_spec (snd y) count); try reflexivity.
  lia.
Qed.

Lemma sort_sorted_input (d : Distribution) :
  StronglySorted count_ge d -> sort by_count_descending d = d.
Proof.
  induction 1 as [|x d Hd IH Hx]; cbn [sort fold_right]; [reflexivity|].
  fold (sort by_count_descending d). rewrite IH.
  destruct d as [|y d]; cbn [sort_insert]; [reflexivity|].
  apply Forall_inv in Hx. unfold count_ge in Hx. unfold by_count_descending.
  destruct (Z.leb_spec (snd y - snd x) 0); [reflexivity | lia].
Qed.

(** X14.  The sort of the rows is stable: entries with the same count stay in the
    order of the distribution; a distribution already in descending order
    is left as it is, so sorting twice changes nothing more. *)
Theorem equal_counts_keep_their_order (d : Distribution) :
  (forall count,
      filter (fun entry => snd entry =? count) (sort by_count_descending d)
      = filter (fun entry => snd entry =? count) d)
  /\ (StronglySorted count_ge d -> sort by_count_descending d = d)
  /\ sort by_count_descending (sort by_count_descending d) = sort by_count_descending d.
Proof.
  split; [|split].
  - intros count. induction d as [|x d IH]; cbn [sort fold_right]; [reflexivity|].
    fold (sort by_count_descending d).
    rewrite filter_sort_insert. cbn [filter]. now rewrite IH.
  - apply sort_sorted_input.
  - apply sort_sorted_input, sort_by_count_sorted.
Qed.

(** ** Sequences of clicks on the report button *)

Lemma generate_click_filled_in (dom : Dom) (p : Page) (c : Click) :
  click dom p c
  = if filled_in c
    then set_button false "Generate Report"
           (loadRegionalStatistics dom (click_latitude c) (click_longitude c)
              (click_outcome c) (set_button true "Analyzing..." p))
    else displayMessage enter_both true p.
Proof.
  unfold click, generate_click, filled_in. rewrite !truthy_string_eqb.
  destruct (String.eqb (click_latitude c) ""), (String.eqb (click_longitude c) "");
    reflexivity.
Qed.

Lemma click_requests (dom : Dom) (p : Page) (c : Click) :
  requests (click dom p c)
  = if filled_in c
    then regional_stats_endpoint (click_latitude c) (click_longitude c) :: requests p
    else requests p.
Proof.
  rewrite generate_click_filled_in. destruct (filled_in c); [|reflexivity].
  page_fields. rewrite loadRegionalStatistics_requests. reflexivity.
Qed.

(** X17.  The requests sent by a sequence of clicks are, in order, those of the
    clicks made with both fields filled in, one each, whatever the endpoint
    answered; the other clicks send nothing. *)
Theorem one_request_for_each_filled_in_click (dom : Dom) (clicks : list Click) (p : Page) :
  requests (run dom clicks p)
  = rev (map (fun c => regional_stats_endpoint (click_latitude c) (click_longitude c))
           (filter filled_in clicks))
      ++ requests p.
Proof.
  revert p; induction clicks as [|c clicks IH]; intros p; cbn [run fold_left].
  - reflexivity.
  - fold (run dom clicks (click dom p c)). rewrite IH, click_requests.
    cbn [filter]. destruct (filled_in c).
    + cbn [map rev]. now rewrite <- app_assoc.
    + reflexivity.
Qed.

(** X18.  When the handler of a click made with both fields filled in is
    over, the button is enabled and reads "Generate Report", whatever the
    endpoint answered and whatever the button showed before; a click that
    fails the validation does not touch it.  So after a sequence of clicks,
    from any page, the button is enabled and reads "Generate Report" if one
    of the clicks was filled in, and is as it was otherwise. *)
Theorem report_button_is_restored (dom : Dom) :
  (forall p c,
      generate_disabled (click dom p c)
      = (if filled_in c then false else generate_disabled p)
      /\ generate_text (click dom p c)
         = (if filled_in c then "Generate Report"%string else generate_text p))
  /\ (forall clicks p,
         generate_disabled (run dom clicks p)
         = (if existsb filled_in clicks then false else generate_disabled p)
         /\ generate_text (run dom clicks p)
            = (if existsb filled_in clicks then "Generate Report"%string
               else generate_text p)).
Proof.
  assert (Hstep : forall p c,
             generate_disabled (click dom p c)
             = (if filled_in c then false else generate_disabled p)
             /\ generate_text (click dom p c)
                = (if filled_in c then "Generate Report"%string else generate_text p)).
  { intros p c. rewrite generate_click_filled_in. destruct (filled_in c); split; reflexivity. }
  split; [exact Hstep|].
  intros clicks. induction clicks as [|c clicks IH]; intros p; cbn [run fold_left existsb].
  - split; reflexivity.
  - fold (run dom clicks (click dom p c)).
    destruct (IH (click dom p c)) as [-> ->]. destruct (Hstep p c) as [-> ->].
    destruct (filled_in c), (existsb filled_in clicks); split; reflexivity.
Qed.


(** ** Chart handles *)

Lemma destroy_chart_registry_incl (p : Page) :
  incl (chart_registry (destroy_chart p)) (chart_registry p).
Proof.
  unfold destroy_chart. destruct (regionalChartInstance p); page_fields.
  - intros entry H. apply filter_In in H. tauto.
  - apply incl_refl.
Qed.

Lemma loadRegionalStatistics_fresh (dom : Dom) (latitude longitude : string)
    (outcome : ApiOutcome) (p : Page) :
  fresh_handles p ->
  fresh_handles (loadRegionalStatistics dom latitude longitude outcome p).
Proof.
  intros [Hi Hr]. unfold fresh_handles.
  rewrite loadRegionalStatistics_instance, loadRegionalStatistics_created,
    loadRegionalStatistics_registry.
  assert (Hd : Forall (fun entry => (fst entry < charts_created p)%nat)
                 (chart_registry (destroy_chart p))).
  { rewrite Forall_forall in *. intros entry H.
    apply Hr, (destroy_chart_registry_incl p), H. }
  destruct outcome as [response|e]; [|split; assumption].
  destruct (empty_result response); [split; assumption|].
  destruct (has_canvas dom); [|split; assumption].
  split.
  - intros handle [= <-]. lia.
  - constructor; [cbn [fst]; lia|].
    eapply Forall_impl; [|exact Hd]. cbn beta. intros entry H. lia.
Qed.

Lemma click_fresh (dom : Dom) (p : Page) (c : Click) :
  fresh_handles p -> fresh_handles (click dom p c).
Proof.
  intros H. rewrite generate_click_filled_in. destruct (filled_in c); [|exact H].
  apply (loadRegionalStatistics_fresh dom (click_latitude c) (click_longitude c)
           (click_outcome c) (set_button true "Analyzing..." p)).
  exact H.
Qed.

Lemma click_created (dom : Dom) (p : Page) (c : Click) :
  (charts_created p <= charts_created (click dom p c) <= S (charts_created p))%nat
  /\ (charts_created (click dom p c) = S (charts_created p) ->
      filled_in c = true
      /\ regionalChartInstance (click dom p c) = Some (charts_created p)).
Proof.
  rewrite generate_click_filled_in. destruct (filled_in c).
  - page_fields. rewrite loadRegionalStatistics_created, loadRegionalStatistics_instance.
    page_fields.
    destruct (click_outcome c) as [response|e]; [|split; lia].
    destruct (empty_result response); [split; lia|].
    destruct (has_canvas dom); split; auto; lia.
  - page_fields. split; lia.
Qed.

(** X19.  A chart gets a handle that no chart had before: on every page reached
    from the loaded document, the handle of the global variable and the
    handles of the charts alive are below the next handle, which never
    decreases and is at most the number of requests sent. *)
Theorem chart_handles_are_fresh (dom : Dom) (clicks : list Click) :
  let p := run dom clicks page_on_load in
  (forall handle, regionalChartInstance p = Some handle -> (handle < charts_created p)%nat)
  /\ (forall handle config,
         In (handle, config) (chart_registry p) -> (handle < charts_created p)%nat)
  /\ (forall more, (charts_created p <= charts_created (run dom more p))%nat)
  /\ (charts_created p <= List.length (requests p))%nat.
Proof.
  cbv zeta.
  assert (Hfresh : forall clicks p, fresh_handles p -> fresh_handles (run dom clicks p)).
  { intros l. induction l as [|c l IH]; intros p H; cbn [run fold_left]; [exact H|].
    apply IH, click_fresh, H. }
  assert (Hmono : forall clicks p, (charts_created p <= charts_created (run dom clicks p))%nat).
  { intros l. induction l as [|c l IH]; intros p; cbn [run fold_left]; [lia|].
    fold (run dom l (click dom p c)).
    specialize (IH (click dom p c)). pose proof (click_created dom p c). lia. }
  assert (Hreq : forall clicks p,
             (charts_created p <= List.length (requests p))%nat ->
             (charts_created (run dom clicks p)
              <= List.length (requests (run dom clicks p)))%nat).
  { intros l. induction l as [|c l IH]; intros p H; cbn [run fold_left]; [exact H|].
    apply IH. pose proof (click_created dom p c) as [Hc Hs].
    rewrite click_requests.
    destruct (filled_in c) eqn:Ef.
    - cbn [List.length]. lia.
    - assert (charts_created (click dom p c) <> S (charts_created p))
        by (intros E; apply Hs in E; destruct E; discriminate).
      lia. }
  destruct (Hfresh clicks page_on_load) as [Hi Hr].
  { split; [discriminate | constructor]. }
  split; [exact Hi|]. split; [|split].
  - intros handle config H. rewrite Forall_forall in Hr. apply (Hr (handle, config) H).
  - intros more. apply Hmono.
  - apply Hreq. cbn. lia.
Qed.

(** ** Severity cell of ranked diseases *)

(** X12.  A disease that the severity index lists with a rank other than 0 shows
    that rank, which is 1, 2 or 3; 'Healthy' is the only disease listed
    with rank 0. *)
Theorem ranked_disease_shows_its_rank (disease : string) (rank : Z) :
  In (disease, rank) DISEASE_SEVERITY_INDEX ->
  (rank = 0 <-> disease = "Healthy"%string)
  /\ (rank <> 0 -> severity_of disease = Rank rank /\ 1 <= rank <= 3)
  /\ forall totalTrees count,
       row_severity (summary_row totalTrees (disease, count))
       = if rank =? 0 then NA else Rank rank.
Proof.
  intros Hin. cbn [DISEASE_SEVERITY_INDEX In] in Hin.
  repeat (destruct Hin as [Hin | Hin];
          [injection Hin as <- <-;
           split;
           [split; intros H; first [reflexivity | discriminate H]
           |split;
            [intros H; first [now elim H | split; [reflexivity | lia]]
            |intros totalTrees count; reflexivity]]
          |]).
  contradiction.
Qed.

Lemma ranked_disease_shows_its_rank_witness :
  (3 = 0 <-> "Anthracnose"%string = "Healthy"%string)
  /\ (3 <> 0 -> severity_of "Anthracnose" = Rank 3 /\ 1 <= 3 <= 3)
  /\ forall totalTrees count,
       row_severity (summary_row totalTrees ("Anthracnose"%string, count))
       = if 3 =? 0 then NA else Rank 3.
Proof.
  apply (ranked_disease_shows_its_rank "Anthracnose" 3).
  simpl. auto 10.
Defined.

(** ** Farm selection *)

Lemma generate_click_requests (dom : Dom) (latitude longitude : string)
    (outcome : ApiOutcome) (p : Page) :
  requests (generate_click dom latitude longitude outcome p)
  = if (String.eqb latitude "" || String.eqb longitude "")%bool then requests p
    else regional_stats_endpoint latitude longitude :: requests p.
Proof.
  unfold generate_click. rewrite !truthy_string_eqb.
  destruct (String.eqb latitude "" || String.eqb longitude "")%bool; [reflexivity|].
  page_fields. rewrite loadRegionalStatistics_requests. reflexivity.
Qed.

Lemma split_not_nil (separator : ascii) (s : string) : split separator s <> [].
Proof.
  destruct s as [|c rest]; cbn [split]; [discriminate|].
  destruct (Ascii.eqb c separator); [discriminate|].
  destruct (split separator rest); discriminate.
Qed.

Lemma split_without_separator (separator : ascii) (s : string) :
  occurs separator s = false -> split separator s = [s].
Proof.
  induction s as [|c rest IH]; cbn [occurs split]; [reflexivity|].
  intros H. apply orb_false_elim in H. destruct H as [-> H].
  now rewrite (IH H).
Qed.

Lemma split_at_first_separator (separator : ascii) (a b : string) :
  occurs separator a = false ->
  split separator (a ++ String separator b) = a :: split separator b.
Proof.
  induction a as [|c a IH]; cbn [occurs split append].
  - intros _. now rewrite Ascii.eqb_refl.
  - intros H. apply orb_false_elim in H. destruct H as [-> H].
    now rewrite (IH H).
Qed.

(** X4.  [split] undoes [join]: the pieces hold no separator, and joined with the
    separator they give the string back. *)
Theorem split_pieces_join_back (separator : ascii) (s : string) :
  String.concat (String separator EmptyString) (split separator s) = s
  /\ Forall (fun piece => occurs separator piece = false) (split separator s)
  /\ List.length (split separator s)
     = S (List.length (filter (Ascii.eqb separator) (list_ascii_of_string s))).
Proof.
  induction s as [|c rest (IHj & IHf & IHl)]; cbn [split].
  - repeat split. repeat constructor.
  - cbn [list_ascii_of_string filter]. rewrite (Ascii.eqb_sym separator c).
    destruct (Ascii.eqb c separator) eqn:E.
    + apply Ascii.eqb_eq in E. subst c. split; [|split].
      * pose proof (split_not_nil separator rest) as Hne.
        cbn [String.concat]. destruct (split separator rest) as [|piece pieces];
          [contradiction|].
        cbn [append]. now rewrite IHj.
      * constructor; [reflexivity | exact IHf].
      * cbn [List.length]. now rewrite IHl.
    + pose proof (split_not_nil separator rest) as Hne.
      destruct (split separator rest) as [|piece pieces]; [contradiction|].
      split; [|split].
      * cbn [String.concat] in *. destruct pieces; cbn [append]; now rewrite <- IHj.
      * inversion IHf as [|? ? Hp Hps]; subst. constructor; [|exact Hps].
        cbn [occurs]. now rewrite E, Hp.
      * exact IHl.
Qed.

(** X5.  Choosing the option whose value is "lat,lon" writes [lat] and [lon] into
    the two fields, whatever they held; choosing the option with the empty
    value clears both.  With non-empty [lat] and [lon] a click on the report
    button then asks for the statistics at exactly these coordinates. *)
Theorem farm_selection_fills_both_fields (lat lon : string) (before : Inputs) :
  occurs "," lat = false ->
  occurs "," lon = false ->
  handleFarmSelection (lat ++ "," ++ lon) before
  = {| reportLatitude := lat; reportLongitude := lon |}
  /\ handleFarmSelection "" before = {| reportLatitude := ""; reportLongitude := "" |}
  /\ forall dom outcome p,
       lat <> ""%string -> lon <> ""%string ->
       let fields := handleFarmSelection (lat ++ "," ++ lon) before in
       requests (generate_click dom (reportLatitude fields) (reportLongitude fields) outcome p)
       = regional_stats_endpoint lat lon :: requests p.
Proof.
  intros Hlat Hlon.
  assert (H : handleFarmSelection (lat ++ "," ++ lon) before
              = {| reportLatitude := lat; reportLongitude := lon |}).
  { unfold handleFarmSelection.
    assert (Ht : truthy_string (Some (lat ++ "," ++ lon)%string) = true)
      by (destruct lat; reflexivity).
    rewrite Ht. cbv zeta.
    change ("," ++ lon)%string with (String "," lon).
    rewrite split_at_first_separator by exact Hlat.
    rewrite split_without_separator by exact Hlon. reflexivity. }
  split; [exact H|]. split; [reflexivity|].
  intros dom outcome p Hla Hlo. cbv zeta. rewrite H.
  cbn [reportLatitude reportLongitude].
  rewrite generate_click_requests.
  destruct (String.eqb_spec lat ""); [contradiction|].
  destruct (String.eqb_spec lon ""); [contradiction|].
  reflexivity.
Qed.

Lemma farm_selection_fills_both_fields_witness :
  handleFarmSelection "12.34,56.78" {| reportLatitude := "1.5"; reportLongitude := "" |}
  = {| reportLatitude := "12.34"; reportLongitude := "56.78" |}
  /\ handleFarmSelection "" {| reportLatitude := "1.5"; reportLongitude := "" |}
     = {| reportLatitude := ""; reportLongitude := "" |}
  /\ forall dom outcome p,
       "12.34"%string <> ""%string -> "56.78"%string <> ""%string ->
       let fields :=
         handleFarmSelection "12.34,56.78" {| reportLatitude := "1.5"; reportLongitude := "" |} in
       requests (generate_click dom (reportLatitude fields) (reportLongitude fields) outcome p)
       = regional_stats_endpoint "12.34" "56.78" :: requests p.
Proof.
  apply (farm_selection_fills_both_fields "12.34" "56.78"
           {| reportLatitude := "1.5"; reportLongitude := "" |}); reflexivity.
Defined.

(** ** [toFixed] *)








(** With one decimal, [toFixed] is the [toFixed(1)] of the percentage cells. *)
Lemma toFixed_1 (x : spec_float) : toFixed 1 x = Number.toFixed1 x.
Proof.
  destruct x as [s|s| |s m e]; try reflexivity.
  unfold toFixed, Number.toFixed1.
  destruct (Number.at_least_1e21 m e); [reflexivity|].
  cbv zeta. change (nearest_scaled 1 m e) with (Number.nearest_tenth m e).
  change (10 ^ Z.of_nat 1) with 10. cbn [Nat.eqb decimals append].
  pose proof (Z.mod_pos_bound (Number.nearest_tenth m e) 10 ltac:(lia)) as Hd.
  set (d := Number.nearest_tenth m e mod 10) in *.
  assert (Hs : Number.string_of_Z d = String (digit (d mod 10)) EmptyString).
  { assert (Hc : d = 0 \/ d = 1 \/ d = 2 \/ d = 3 \/ d = 4 \/ d = 5 \/ d = 6
                 \/ d = 7 \/ d = 8 \/ d = 9) by lia.
    clearbody d.
    repeat (destruct Hc as [-> | Hc]; [reflexivity|]). now subst. }
  now rewrite Hs.
Qed.




(** ** Detected position *)






(** X22.  A click on the detect button drops the farm selection at once, but not
    the coordinates in the two fields: when the position cannot be found,
    the fields still hold what they held, the selection is gone, and the
    error is shown with its reason ("undefined" when it has none).  In a
    browser without geolocation the click only shows an error.  The
    callbacks never touch the button; the timer puts it back. *)
Theorem failed_detection_keeps_the_coordinates (l : Locator) (error_message : option string) :
  let after := position_failed error_message (fst (detect_click true l)) in
  inputs after = inputs l
  /\ farmSelect_value after = ""%string
  /\ notices after
     = (("Error detecting location: "
           ++ match error_message with Some text => text | None => "undefined" end
           ++ ". Enter manually.")%string, true)
         :: ("Please allow browser location access."%string, false) :: notices l
  /\ (detect_disabled after = true /\ detect_text after = "Detecting..."%string)
  /\ (detect_disabled (detect_timer after) = false
      /\ detect_text (detect_timer after) = "Detect Current GPS"%string
      /\ inputs (detect_timer after) = inputs l
      /\ notices (detect_timer after) = notices after)
  /\ detect_click false l
     = ({| detect_disabled := detect_disabled l;
           detect_text := detect_text l;
           farmSelect_value := farmSelect_value l;
           inputs := inputs l;
           notices := ("Geolocation is not supported by your browser."%string, true)
                        :: notices l |}, false).
Proof.
  cbv zeta. destruct error_message; repeat split.
Qed.

(** ** Accuracy of the percentage *)

Lemma Qpower_2_pos (e : Z) : (0 < Qpower 2 e)%Q.
Proof. apply Qpower_0_lt. reflexivity. Qed.

Lemma Qpower_2_add (a b : Z) : (Qpower 2 (a + b) == Qpower 2 a * Qpower 2 b)%Q.
Proof. apply Qpower_plus. discriminate. Qed.

Lemma inject_pow2 (k : Z) : 0 <= k -> (inject_Z (2 ^ k) == Qpower 2 k)%Q.
Proof.
  intros Hk. destruct k as [|p|p]; [reflexivity| |lia].
  cbn [Qpower]. rewrite Qpower_decomp_positive.
  unfold Qeq, inject_Z; cbn [Qnum Qden].
  assert (H1 : Zpos (1 ^ p) = 1) by (rewrite Pos2Z.inj_pow; apply Z.pow_1_l; lia).
  rewrite H1. reflexivity.
Qed.

Lemma Qval_mul (m n e f : Z) : (Qval (m * n) (e + f) == Qval m e * Qval n f)%Q.
Proof. unfold Qval. rewrite inject_Z_mult, Qpower_2_add. ring. Qed.

Lemma Qval_shift (m e k : Z) : 0 <= k -> (Qval (m * 2 ^ k) e == Qval m (e + k))%Q.
Proof.
  intros Hk. unfold Qval. rewrite inject_Z_mult, inject_pow2, Qpower_2_add by exact Hk. ring.
Qed.

Lemma Qval_integer (m z e : Z) : e <= 0 -> m = z * 2 ^ (- e) -> (Qval m e == inject_Z z)%Q.
Proof.
  intros He ->. rewrite Qval_shift by lia. replace (e + - e) with 0 by lia.
  unfold Qval. change (Qpower 2 0) with 1%Q. ring.
Qed.

Lemma Q_of_finite_Qval (m : positive) (e : Z) :
  (Number.Q_of_finite m e == Qval (Zpos m) e)%Q.
Proof.
  unfold Number.Q_of_finite, Qval. destruct e as [|p|p].
  - change (Qpower 2 0) with 1%Q. unfold inject_Z. ring.
  - rewrite <- inject_pow2 by lia. unfold Qeq, Qmult, inject_Z; cbn [Qnum Qden].
    rewrite Pos2Z.inj_pow. reflexivity.
  - change (Z.neg p) with (- Z.pos p). rewrite Qpower_opp, <- inject_pow2 by lia.
    unfold Qeq, Qmult, Qinv, inject_Z; cbn [Qnum Qden].
    rewrite <- Pos2Z.inj_pow. cbn [Qnum Qden]. lia.
Qed.

Lemma Zdigits2_gt (q k : Z) : 0 <= k -> 2 ^ k <= q -> k < Zdigits2 q.
Proof.
  intros Hk Hq. assert (0 < 2 ^ k) by (apply Z.pow_pos_nonneg; lia).
  destruct q as [|p|p]; try lia. cbn [Zdigits2].
  pose proof (digits2_pos_bounds p) as [_ Hd].
  assert (H2 : 2 ^ k < 2 ^ Zpos (digits2_pos p)) by lia.
  apply Z.pow_lt_mono_r_iff in H2; lia.
Qed.

(** Rounding a mantissa of 53 bits or more: the double differs from the
    value rounded by at most 2^-50 of it. *)
Lemma binary_round_aux_accuracy (mx ex : Z) (lx : location) :
  2 ^ 52 <= mx -> - 1074 <= ex -> ex + Zdigits2 mx <= 970 ->
  exists (m : positive) (e A : Z),
    binary_round_aux Number.prec Number.emax false mx ex lx = S754_finite false m e
    /\ (Qval (Zpos m) e == Qval A ex)%Q
    /\ 2 ^ 50 * (mx - A) <= mx /\ 2 ^ 50 * (A - mx) <= mx
    /\ ex <= e /\ Zdigits2 (Zpos m) + e <= Zdigits2 mx + ex + 1.
Proof.
  intros Hmx Hex Hov.
  change (2 ^ 52) with 4503599627370496 in Hmx.
  destruct (binary_round_aux_shape mx ex lx ltac:(lia)) as (r & Hr & E).
  cbv zeta in Hr, E. rewrite !double_fexp in *.
  pose proof (Zdigits2_gt mx 52 ltac:(lia) Hmx) as Hd.
  set (d := Zdigits2 mx) in *.
  assert (Hmd : 2 ^ (d - 1) <= mx < 2 ^ d).
  { unfold d. destruct mx as [|p|p]; try lia. apply digits2_pos_bounds. }
  replace (Z.max 0 (Z.max (d + ex - 53) (- 1074) - ex)) with (d - 53) in * by lia.
  set (k1 := d - 53) in *.
  assert (Hk1 : 0 <= k1) by (unfold k1; lia).
  assert (P1 : 0 < 2 ^ k1) by (apply Z.pow_pos_nonneg; lia).
  assert (Hd1 : 2 ^ (d - 1) = 4503599627370496 * 2 ^ k1).
  { replace (d - 1) with (52 + k1) by (unfold k1; lia). now rewrite Z.pow_add_r by lia. }
  assert (Hd2 : 2 ^ d = 9007199254740992 * 2 ^ k1).
  { replace d with (53 + k1) at 1 by (unfold k1; lia). now rewrite Z.pow_add_r by lia. }
  pose proof (Z.mul_div_le mx (2 ^ k1) P1) as D1.
  pose proof (Z.mul_succ_div_gt mx (2 ^ k1) P1) as D1'.
  assert (Hq : 4503599627370496 <= mx / 2 ^ k1 < 9007199254740992).
  { split; [apply Z.div_le_lower_bound | apply Z.div_lt_upper_bound]; lia. }
  assert (Hr53 : 4503599627370496 <= r <= 9007199254740992) by lia.
  pose proof (Zdigits2_gt r 52 ltac:(lia) ltac:(change (2 ^ 52) with 4503599627370496; lia)) as Hdr.
  pose proof (Zdigits2_le r 54 ltac:(change (2 ^ 54) with 18014398509481984; lia)) as Hdr'.
  set (dr := Zdigits2 r) in *.
  replace (Z.max 0 (Z.max (dr + (ex + k1) - 53) (- 1074) - (ex + k1))) with (dr - 53) in * by lia.
  set (k2 := dr - 53) in *.
  assert (Hk2 : k2 = 0 \/ k2 = 1) by (unfold k2; lia).
  assert (Hm2 : 2251799813685248 <= r / 2 ^ k2 /\ r - 1 <= 2 ^ k2 * (r / 2 ^ k2) <= r).
  { destruct Hk2 as [-> | ->].
    - change (2 ^ 0) with 1. rewrite Z.div_1_r. lia.
    - change (2 ^ 1) with 2.
      pose proof (Z.mul_div_le r 2 ltac:(lia)). pose proof (Z.mul_succ_div_gt r 2 ltac:(lia)).
      split; [apply Z.div_le_lower_bound; lia | lia]. }
  destruct (r / 2 ^ k2) as [|m|m] eqn:Em; try lia.
  exists m, (ex + k1 + k2), (Zpos m * 2 ^ (k1 + k2)).
  destruct (Z.leb_spec (ex + k1 + k2) 971); [|unfold k1, k2 in *; lia].
  split; [exact E|]. split.
  { rewrite Qval_shift by lia. replace (ex + (k1 + k2)) with (ex + k1 + k2) by lia. reflexivity. }
  assert (P2 : 2 ^ k2 = 1 \/ 2 ^ k2 = 2) by (destruct Hk2 as [-> | ->]; auto).
  rewrite Z.pow_add_r by lia.
  change (2 ^ 50) with 1125899906842624.
  set (P := 2 ^ k1) in *. set (q1 := mx / P) in *.
  assert (Hlo : (q1 - 1) * P <= Zpos m * (P * 2 ^ k2)).
  { replace (Zpos m * (P * 2 ^ k2)) with (2 ^ k2 * Zpos m * P) by ring.
    apply Z.mul_le_mono_nonneg_r; lia. }
  assert (Hhi : Zpos m * (P * 2 ^ k2) <= (q1 + 1) * P).
  { replace (Zpos m * (P * 2 ^ k2)) with (2 ^ k2 * Zpos m * P) by ring.
    apply Z.mul_le_mono_nonneg_r; lia. }
  split; [|split; [|split]].
  - lia.
  - lia.
  - lia.
  - assert (Hrlt : r < 2 ^ dr).
    { unfold dr. destruct r as [|p|p]; try lia. apply digits2_pos_bounds. }
    assert (Hmm : Zdigits2 (Zpos m) <= 53).
    { apply Zdigits2_le. change (2 ^ 53) with 9007199254740992.
      destruct Hk2 as [H2 | H2]; rewrite H2 in *.
      - replace dr with 53 in Hrlt by (unfold k2 in H2; lia).
        change (2 ^ 53) with 9007199254740992 in Hrlt. change (2 ^ 0) with 1 in *. lia.
      - change (2 ^ 1) with 2 in *. lia. }
    unfold k1, k2 in *. lia.
Qed.

Lemma Qval_le_scaled (A B k ex : Z) :
  k * A <= B -> (inject_Z k * Qval A ex <= Qval B ex)%Q.
Proof.
  intros H. unfold Qval. pose proof (Qpower_2_pos ex) as Hp.
  rewrite Qmult_assoc, <- inject_Z_mult.
  apply Qmult_le_compat_r; [|apply Qlt_le_weak, Hp].
  rewrite <- Zle_Qle. exact H.
Qed.

(** The double [(count / total) * 100] is within 2^-48 of the exact
    percentage, relatively. *)
Lemma percent_value_accuracy (count total : Z) :
  0 < count < 2 ^ 53 -> 0 < total < 2 ^ 53 ->
  exists (m : positive) (e : Z),
    percent_value count total = S754_finite false m e
    /\ Number.at_least_1e21 m e = false
    /\ ((1 - (1 # 281474976710656)) * (100 * inject_Z count)
        <= Qval (Zpos m) e * inject_Z total
        /\ Qval (Zpos m) e * inject_Z total
           <= (1 + (1 # 281474976710656)) * (100 * inject_Z count))%Q.
Proof.
  intros Hc Ht. unfold percent_value.
  destruct (of_Z_small total Ht) as (m2 & e2 & E2 & D2 & R2 & V2). rewrite E2.
  destruct (of_Z_small count Hc) as (m1 & e1 & E1 & D1 & R1 & V1). rewrite E1.
  unfold Number.div, SFdiv. rewrite SFdiv_core_binary_53 by assumption.
  change (xorb false false) with false.
  pose proof (digits2_pos_bounds m1) as B1. rewrite D1 in B1.
  pose proof (digits2_pos_bounds m2) as B2. rewrite D2 in B2.
  change (2 ^ (53 - 1)) with 4503599627370496 in *.
  change (2 ^ 53) with 9007199254740992 in *.
  set (q := Zpos m1 * 9007199254740992 / Zpos m2).
  assert (Hq : 4503599627370496 <= q < 18014398509481984).
  { split; [apply Z.div_le_lower_bound | apply Z.div_lt_upper_bound]; nia. }
  assert (Hqm : q * Zpos m2 <= Zpos m1 * 9007199254740992 < (q + 1) * Zpos m2).
  { pose proof (Z.mul_div_le (Zpos m1 * 9007199254740992) (Zpos m2) ltac:(lia)).
    pose proof (Z.mul_succ_div_gt (Zpos m1 * 9007199254740992) (Zpos m2) ltac:(lia)).
    fold q in H, H0. lia. }
  pose proof (Zdigits2_le q 54 ltac:(change (2 ^ 54) with 18014398509481984; lia)) as Hdq.
  destruct (binary_round_aux_accuracy q (e1 - e2 - 53)
              (new_location (Zpos m2) ((Zpos m1 * 9007199254740992) mod Zpos m2)))
    as (ma & ea & A & Ea & Va & Alo & Ahi & Hea & Hma);
    [change (2 ^ 52) with 4503599627370496; lia | lia | lia |].
  rewrite Ea.
  change (Number.of_Z 100) with (S754_finite false 7036874417766400 (- 46)).
  unfold Number.mul, SFmul. change (xorb false false) with false.
  pose proof (Zdigits2_mul ma 7036874417766400) as Hdp.
  change (Zdigits2 (Zpos 7036874417766400)) with 53 in Hdp.
  destruct (binary_round_aux_accuracy (Zpos (ma * 7036874417766400)) (ea + - 46) loc_Exact)
    as (mb & eb & B & Eb & Vb & Blo & Bhi & Heb & Hmb);
    [change (2 ^ 52) with 4503599627370496; lia | lia | lia |].
  exists mb, eb. split; [exact Eb|]. split; [apply at_least_1e21_magnitude; lia|].
  (* the values, as rationals *)
  change (2 ^ 50) with 1125899906842624 in *.
  assert (Qc : (Qval (Zpos m1) e1 == inject_Z count)%Q) by (apply Qval_integer; lia).
  assert (Qt : (Qval (Zpos m2) e2 == inject_Z total)%Q) by (apply Qval_integer; lia).
  assert (Q100 : (Qval 7036874417766400 (- 46) == 100)%Q) by reflexivity.
  set (x := Qval (Zpos mb) eb) in *.
  set (P := Zpos (ma * 7036874417766400)) in *.
  pose proof (Qval_le_scaled (P - B) P 1125899906842624 (ea + - 46) Blo) as XB1.
  pose proof (Qval_le_scaled (B - P) P 1125899906842624 (ea + - 46) Bhi) as XB2.
  assert (QP : (Qval P (ea + - 46) == Qval A (e1 - e2 - 53) * 100)%Q).
  { unfold P. rewrite Pos2Z.inj_mul, Qval_mul, Va, Q100. reflexivity. }
  pose proof (Qval_le_scaled (q - A) q 1125899906842624 (e1 - e2 - 53) Alo) as XA1.
  pose proof (Qval_le_scaled (A - q) q 1125899906842624 (e1 - e2 - 53) Ahi) as XA2.
  assert (Lin : forall a b ex, (Qval (a - b) ex == Qval a ex - Qval b ex)%Q).
  { intros a b ex. unfold Qval, Z.sub. rewrite inject_Z_plus, inject_Z_opp. ring. }
  rewrite Lin in XB1, XB2, XA1, XA2. rewrite <- Vb in XB1, XB2. fold x in XB1, XB2.
  rewrite QP in XB1, XB2.
  set (Y := Qval A (e1 - e2 - 53)) in *. set (W := Qval q (e1 - e2 - 53)) in *.
  (* the quotient against count / total *)
  assert (Wt : (W * inject_Z total <= inject_Z count
                /\ inject_Z count
                   <= W * inject_Z total * (1 + (1 # 4503599627370496)))%Q).
  { rewrite <- Qc, <- Qt. unfold W.
    assert (S1 : (Qval q (e1 - e2 - 53) * Qval (Zpos m2) e2
                  == Qval (q * Zpos m2) (e1 - 53))%Q)
      by (rewrite <- Qval_mul; replace (e1 - e2 - 53 + e2) with (e1 - 53) by lia; reflexivity).
    assert (S2 : (Qval (Zpos m1) e1 == Qval (Zpos m1 * 9007199254740992) (e1 - 53))%Q).
    { change 9007199254740992 with (2 ^ 53). rewrite Qval_shift by lia.
      replace (e1 - 53 + 53) with e1 by lia. reflexivity. }
    rewrite S1, S2. split.
    - pose proof (Qval_le_scaled (q * Zpos m2) (Zpos m1 * 9007199254740992) 1 (e1 - 53)
                    ltac:(lia)) as H.
      change (inject_Z 1) with 1%Q in H. lra.
    - pose proof (Qval_le_scaled (Zpos m1 * 9007199254740992) (q * Zpos m2 * 4503599627370497)
                    4503599627370496 (e1 - 53) ltac:(nia)) as H.
      assert (S3 : (Qval (q * Zpos m2 * 4503599627370497) (e1 - 53)
                    == Qval (q * Zpos m2) (e1 - 53) * inject_Z 4503599627370497)%Q)
        by (unfold Qval; rewrite !inject_Z_mult; ring).
      rewrite S3 in H.
      set (V := Qval (q * Zpos m2) (e1 - 53)) in *.
      set (C := Qval (Zpos m1 * 9007199254740992) (e1 - 53)) in *.
      change (inject_Z 4503599627370496) with (4503599627370496 # 1)%Q in H.
      change (inject_Z 4503599627370497) with (4503599627370497 # 1)%Q in H.
      lra. }
  change (inject_Z 1125899906842624) with (1125899906842624 # 1)%Q in *.
  assert (Tpos : (0 < inject_Z total)%Q) by (rewrite <- (Zlt_Qlt 0); lia).
  assert (XU : (x <= (1 + (1 # 1125899906842624)) * ((1 + (1 # 1125899906842624)) * W) * 100)%Q)
    by lra.
  assert (XL : ((1 - (1 # 1125899906842624)) * ((1 - (1 # 1125899906842624)) * W) * 100 <= x)%Q)
    by lra.
  pose proof (Qmult_le_compat_r _ _ (inject_Z total) XU (Qlt_le_weak _ _ Tpos)) as XU'.
  pose proof (Qmult_le_compat_r _ _ (inject_Z total) XL (Qlt_le_weak _ _ Tpos)) as XL'.
  destruct Wt as [Wt1 Wt2].
  set (T := inject_Z total) in *. set (C := inject_Z count) in *.
  assert (WT : (W * T == W * T)%Q) by reflexivity.
  set (WT' := (W * T)%Q) in *.
  assert (XU'' : (x * T <= (1 + (1 # 1125899906842624)) * ((1 + (1 # 1125899906842624)) * WT') * 100)%Q).
  { unfold WT'. eapply Qle_trans; [exact XU'|]. apply Qle_lteq. right. ring. }
  assert (XL'' : ((1 - (1 # 1125899906842624)) * ((1 - (1 # 1125899906842624)) * WT') * 100 <= x * T)%Q).
  { unfold WT'. eapply Qle_trans; [|exact XL']. apply Qle_lteq. right. ring. }
  assert (Cpos : (0 < C)%Q) by (unfold C; rewrite <- (Zlt_Qlt 0); lia).
  clearbody WT' x. clear - XU'' XL'' Wt1 Wt2 Cpos.
  split; lra.
Qed.

Lemma inject_Z_sub (a b : Z) : (inject_Z (a - b) == inject_Z a - inject_Z b)%Q.
Proof. unfold Z.sub. rewrite inject_Z_plus, inject_Z_opp. ring. Qed.

Lemma percent_value_of_zero (total : Z) :
  0 < total < 2 ^ 53 -> percent_value 0 total = S754_zero false.
Proof.
  intros Ht. unfold percent_value.
  destruct (of_Z_small total Ht) as (m & e & -> & _). reflexivity.
Qed.

Lemma displayed_tenths_accuracy (count total : Z) :
  0 <= count <= total -> 0 < total <= 10 ^ 9 ->
  exists n : Z,
    displayed_tenths count total = Some n
    /\ percentage count total = Some (percent_text n)
    /\ 0 <= n <= 1000
    /\ 2 * Z.abs (n * total - 1000 * count) <= total.
Proof.
  intros Hc Ht. change (10 ^ 9) with 1000000000 in Ht.
  assert (H53 : 1000000000 < 2 ^ 53) by reflexivity.
  destruct (Z.eq_dec count 0) as [-> | Hc0].
  - assert (H0 : displayed_tenths 0 total = Some 0)
      by (unfold displayed_tenths; rewrite percent_value_of_zero by lia; reflexivity).
    exists 0. split; [exact H0|]. split; [|lia].
    apply percentage_displayed_tenths; [lia | exact H0].
  - destruct (percent_value_accuracy count total ltac:(lia) ltac:(lia))
      as (m & e & E & H21 & Hlo & Hhi).
    assert (Hn : displayed_tenths count total = Some (Number.nearest_tenth m e))
      by (unfold displayed_tenths; rewrite E, H21; reflexivity).
    exists (Number.nearest_tenth m e). split; [exact Hn|].
    split; [apply percentage_displayed_tenths; [lia | exact Hn]|].
    destruct (nearest_tenth_spec m e) as [N1 N2].
    pose proof (nearest_tenth_nonneg m e) as N0.
    rewrite Q_of_finite_Qval in N1, N2.
    set (n := Number.nearest_tenth m e) in *. set (x := Qval (Zpos m) e) in *.
    assert (Tpos : (0 < inject_Z total)%Q) by (rewrite <- (Zlt_Qlt 0); lia).
    assert (Tle : (inject_Z total <= 1000000000)%Q)
      by (change 1000000000%Q with (inject_Z 1000000000); rewrite <- Zle_Qle; lia).
    assert (Cle : (inject_Z count <= inject_Z total)%Q) by (rewrite <- Zle_Qle; lia).
    assert (Cpos : (0 < inject_Z count)%Q) by (rewrite <- (Zlt_Qlt 0); lia).
    pose proof (Qmult_le_compat_r _ _ (inject_Z total) N1 (Qlt_le_weak _ _ Tpos)) as M1.
    pose proof (Qmult_lt_compat_r _ _ (inject_Z total) Tpos N2) as M2.
    assert (A1 : (inject_Z (2 * (n * total - 1000 * count)) < inject_Z (total + 1))%Q).
    { rewrite inject_Z_plus, inject_Z_mult, inject_Z_sub, !inject_Z_mult.
      change (inject_Z 2) with 2%Q. change (inject_Z 1000) with 1000%Q.
      change (inject_Z 1) with 1%Q.
      set (T := inject_Z total) in *. set (C := inject_Z count) in *.
      set (N := inject_Z n) in *.
      assert (R : ((10 * x + (1 # 2)) * T == 10 * (x * T) + (1 # 2) * T)%Q) by ring.
      rewrite R in M1. set (XT := (x * T)%Q) in *. clearbody XT.
      set (NT := (N * T)%Q) in *. clearbody NT. lra. }
    assert (A2 : (inject_Z (- total - 1) < inject_Z (2 * (n * total - 1000 * count)))%Q).
    { rewrite inject_Z_sub, inject_Z_opp, inject_Z_mult, inject_Z_sub, !inject_Z_mult.
      change (inject_Z 2) with 2%Q. change (inject_Z 1000) with 1000%Q.
      change (inject_Z 1) with 1%Q.
      set (T := inject_Z total) in *. set (C := inject_Z count) in *.
      set (N := inject_Z n) in *.
      assert (R : ((10 * x + (1 # 2)) * T == 10 * (x * T) + (1 # 2) * T)%Q) by ring.
      assert (R' : ((N + 1) * T == N * T + T)%Q) by ring.
      rewrite R, R' in M2. set (XT := (x * T)%Q) in *. clearbody XT.
      set (NT := (N * T)%Q) in *. clearbody NT. lra. }
    rewrite <- Zlt_Qlt in A1, A2.
    split; [split; [exact N0 | nia] | lia].
Qed.

(** X1.  For a total of up to a billion trees, the tenths a percentage cell shows
    are a multiple of a tenth nearest to the exact percentage
    [100 * count / total]: the cell is off by at most 0.05.  (At an exact
    tie either neighbor may be shown: the double decides.) *)
Theorem displayed_percentage_is_a_nearest_tenth (count total : Z) :
  0 <= count <= total -> 0 < total <= 10 ^ 9 ->
  exists n : Z,
    displayed_tenths count total = Some n
    /\ percentage count total = Some (percent_text n)
    /\ 0 <= n <= 1000
    /\ 2 * Z.abs (n * total - 1000 * count) <= total.
Proof. apply displayed_tenths_accuracy. Qed.

Lemma displayed_percentage_is_a_nearest_tenth_witness :
  exists n : Z,
    displayed_tenths 9 2000 = Some n
    /\ percentage 9 2000 = Some (percent_text n)
    /\ 0 <= n <= 1000
    /\ 2 * Z.abs (n * 2000 - 1000 * 9) <= 2000.
Proof.
  apply (displayed_percentage_is_a_nearest_tenth 9 2000).
  - lia.
  - split; [lia | vm_compute; discriminate].
Defined.

(** ** The static guide as loaded *)

(** X6.  Without its container [loadAllTreatments] does nothing, and sends
    nothing.  With it, one request goes to the disease catalog; the
    container then holds the failure notice when the request failed, and
    otherwise a table with one row for each disease of the catalog whose
    name is not 'Healthy', in the order of the catalog, no cell of which is
    empty.  The loading text never stays. *)
Theorem guide_lists_every_disease_but_healthy (outcome : DiseasesOutcome) (g : GuidePage) :
  match allDiseasesTreatment g with
  | None => loadAllTreatments outcome g = g
  | Some _ =>
      guide_requests (loadAllTreatments outcome g)
      = "/api/user/diseases"%string :: guide_requests g
      /\ match outcome with
         | DiseasesThrow =>
             allDiseasesTreatment (loadAllTreatments outcome g) = Some GuideFailed
         | DiseasesOk diseases =>
             exists table,
               allDiseasesTreatment (loadAllTreatments outcome g) = Some (GuideTable table)
               /\ map guide_name table
                  = filter (fun n => negb (String.eqb n "Healthy")) (map name diseases)
               /\ ~ In "Healthy"%string (map guide_name table)
               /\ Forall (fun row => guide_organic row <> ""%string
                                     /\ guide_chemical row <> ""%string) table
         end
  end.
Proof.
  unfold loadAllTreatments. destruct (allDiseasesTreatment g) as [content|]; [|reflexivity].
  destruct outcome as [diseases|]; cbn [guide_requests allDiseasesTreatment].
  - split; [reflexivity|]. exists (guide_rows diseases).
    destruct (guide_rows_spec diseases) as (H1 & H2 & _ & H4). auto.
  - split; reflexivity.
Qed.

(** ** The report for a distribution with keys *)

(** X15.  For a response whose distribution has at least one key, one request is
    sent, the table and the cards are written into the containers that
    exist, a chart is created when the canvas exists, and the success
    message is displayed.  The status line keeps the text set before the
    request, and the message of the response is not shown. *)
Theorem report_is_rendered_for_a_distribution_with_keys
    (dom : Dom) (latitude longitude : string) (d : Distribution)
    (top : option (list TopTreatment)) (text : option string) (p : Page) :
  d <> [] ->
  let response := {| regional_data := Some d; top_treatments := top; message := text |} in
  let p' := loadRegionalStatistics dom latitude longitude (Resolved response) p in
  requests p' = regional_stats_endpoint latitude longitude :: requests p
  /\ regionalDataSummary p'
     = (if has_summary dom then Some (summary_table d) else regionalDataSummary p)
  /\ treatmentSummary p'
     = (if has_treatment dom
        then top_treatment_cards match top with Some t => t | None => [] end
        else treatmentSummary p)
  /\ chart_registry p'
     = (if has_canvas dom
        then (charts_created p, chart_config d) :: chart_registry (destroy_chart p)
        else chart_registry p)
  /\ regionalChartInstance p'
     = (if has_canvas dom then Some (charts_created p) else regionalChartInstance p)
  /\ chartMessage p' = "Fetching data from surrounding 5km..."%string
  /\ messages p'
     = ("Regional disease risk assessment loaded successfully."%string, false)
         :: messages p.
Proof.
  intros Hkeys. cbv zeta.
  assert (He : empty_result
                 {| regional_data := Some d; top_treatments := top; message := text |}
               = false).
  { unfold empty_result; cbn [regional_data]. destruct d; [congruence | reflexivity]. }
  rewrite loadRegionalStatistics_requests, loadRegionalStatistics_summary,
    loadRegionalStatistics_treatment, loadRegionalStatistics_registry,
    loadRegionalStatistics_instance, loadRegionalStatistics_chartMessage,
    loadRegionalStatistics_messages, He.
  cbn [regional_data top_treatments]. repeat split.
Qed.

Lemma report_is_rendered_for_a_distribution_with_keys_witness :
  let d := [("Anthracnose", 5); ("Gall Midge", 12)]%string in
  let p' :=
    loadRegionalStatistics
      {| has_canvas := true; has_summary := true; has_treatment := true |}
      "12.34" "56.78"
      (Resolved {| regional_data := Some d; top_treatments := None;
                   message := Some "ignored"%string |})
      page_on_load in
  requests p' = [regional_stats_endpoint "12.34" "56.78"]
  /\ regionalDataSummary p' = Some (summary_table d)
  /\ treatmentSummary p' = []
  /\ chart_registry p' = [(0%nat, chart_config d)]
  /\ regionalChartInstance p' = Some 0%nat
  /\ chartMessage p' = "Fetching data from surrounding 5km..."%string
  /\ messages p'
     = [("Regional disease risk assessment loaded successfully."%string, false)].
Proof.
  apply (report_is_rendered_for_a_distribution_with_keys
           {| has_canvas := true; has_summary := true; has_treatment := true |}
           "12.34" "56.78" [("Anthracnose", 5); ("Gall Midge", 12)]%string
           None (Some "ignored"%string) page_on_load).
  discriminate.
Defined.

(** ** The sum of the percentage cells *)

Lemma displayed_tenths_partial_sum (total : Z) (l : Distribution) :
  0 < total <= 10 ^ 9 ->
  Forall (fun entry => 0 <= snd entry <= total) l ->
  exists s,
    fold_right
      (fun entry acc =>
         match displayed_tenths (snd entry) total, acc with
         | Some n, Some a => Some (n + a)
         | _, _ => None
         end)
      (Some 0) l
    = Some s
    /\ 2 * Z.abs (s * total - 1000 * sum (values l)) <= Z.of_nat (List.length l) * total.
Proof.
  intros Ht. induction 1 as [|[disease count] l Hc _ (a & Ea & Ha)]; cbn [fold_right].
  - exists 0. split; [reflexivity|]. cbn. lia.
  - cbn [snd] in *.
    destruct (displayed_tenths_accuracy count total Hc Ht) as (n & En & _ & _ & Hn).
    rewrite Ea, En. exists (n + a). split; [reflexivity|].
    unfold values in *. cbn [map snd List.length]. rewrite sum_cons, Nat2Z.inj_succ. lia.
Qed.

(** X23.  For a distribution of non-negative counts with a total of up to a
    billion trees, the percentage cells add up to 100.0 within 0.05 for
    each row: the sum [s] of the tenths shown satisfies
    [2 * |s - 1000| <= number of rows]. *)
Theorem displayed_percentages_add_up_to_about_100 (d : Distribution) :
  Forall (fun entry => 0 <= snd entry) d ->
  0 < sum (values d) <= 10 ^ 9 ->
  exists s,
    sum_of_displayed_tenths d = Some s
    /\ 2 * Z.abs (s - 1000) <= Z.of_nat (List.length d).
Proof.
  intros Hnonneg Ht.
  assert (Hall : Forall (fun entry => 0 <= snd entry <= sum (values d)) d).
  { rewrite Forall_forall in *. intros [disease count] Hin. cbn [snd].
    apply In_le_sum.
    - unfold values. apply Forall_map, Forall_forall. exact Hnonneg.
    - unfold values. change count with (snd (disease, count)). now apply in_map. }
  destruct (displayed_tenths_partial_sum (sum (values d)) d Ht Hall) as (s & Es & Hs).
  exists s. split; [exact Es|].
  replace (s * sum (values d) - 1000 * sum (values d))
    with ((s - 1000) * sum (values d)) in Hs by ring.
  rewrite Z.abs_mul, (Z.abs_eq (sum (values d))) in Hs by lia.
  nia.
Qed.

Lemma displayed_percentages_add_up_to_about_100_witness :
  exists s,
    sum_of_displayed_tenths [("A", 1); ("B", 1); ("C", 1)]%string = Some s
    /\ 2 * Z.abs (s - 1000) <= Z.of_nat (List.length [("A", 1); ("B", 1); ("C", 1)]%string).
Proof.
  apply (displayed_percentages_add_up_to_about_100 [("A", 1); ("B", 1); ("C", 1)]%string).
  - repeat constructor; simpl; lia.
  - vm_compute. split; [reflexivity | discriminate].
Defined.

(** ** What the page shows after a click *)

(** X24.  On a page that has the canvas and both containers, what is shown
    after a click made with both fields filled in depends on the answer to
    that click alone, whatever was clicked and answered before: the table,
    the cards and the one chart of this answer and the status text set
    before the request, or, for an empty result or a failed request,
    cleared containers, no chart, and the message of the case in the status
    line. *)
Theorem page_shows_the_latest_answer_only (dom : Dom) (clicks : list Click) (c : Click) :
  has_canvas dom = true -> has_summary dom = true -> has_treatment dom = true ->
  filled_in c = true ->
  let p := run dom (clicks ++ [c]) page_on_load in
  match click_outcome c with
  | Resolved response =>
      if empty_result response then
        regionalDataSummary p = None /\ treatmentSummary p = []
        /\ chart_registry p = []
        /\ chartMessage p = or_string (message response) no_trees_found
      else
        regionalDataSummary p
        = Some (summary_table match regional_data response with Some d => d | None => [] end)
        /\ treatmentSummary p
           = top_treatment_cards match top_treatments response with Some t => t | None => [] end
        /\ map snd (chart_registry p)
           = [chart_config match regional_data response with Some d => d | None => [] end]
        /\ chartMessage p = "Fetching data from surrounding 5km..."%string
  | Rejected error_message =>
      regionalDataSummary p = None /\ treatmentSummary p = []
      /\ chart_registry p = []
      /\ chartMessage p
         = ("Failed to load regional data: " ++ template_string error_message)%string
  end.
Proof.
  intros Hcanvas Hsummary Htreatment Hfilled. cbv zeta.
  rewrite run_app. set (p := run dom clicks page_on_load).
  change (run dom [c] p) with (click dom p c).
  assert (Hone : at_most_one_chart p) by (apply run_at_most_one; exact I).
  rewrite generate_click_filled_in, Hfilled. page_fields.
  rewrite loadRegionalStatistics_summary, loadRegionalStatistics_treatment,
    loadRegionalStatistics_registry, loadRegionalStatistics_chartMessage,
    Hcanvas, Hsummary, Htreatment.
  rewrite (destroy_chart_registry (set_button true "Analyzing..." p) Hone).
  destruct (click_outcome c) as [response|error_message].
  - destruct (empty_result response); repeat split.
  - repeat split.
Qed.

Lemma page_shows_the_latest_answer_only_witness :
  let dom := {| has_canvas := true; has_summary := true; has_treatment := true |} in
  let first :=
    {| click_latitude := "12.34"; click_longitude := "56.78";
       click_outcome :=
         Resolved {| regional_data := Some [("Anthracnose", 5)]%string;
                     top_treatments := None; message := None |} |} in
  let second :=
    {| click_latitude := "1.5"; click_longitude := "2.5";
       click_outcome := Rejected (Some "Network error"%string) |} in
  let p := run dom ([first] ++ [second]) page_on_load in
  regionalDataSummary p = None /\ treatmentSummary p = []
  /\ chart_registry p = []
  /\ chartMessage p = "Failed to load regional data: Network error"%string.
Proof.
  apply (page_shows_the_latest_answer_only
           {| has_canvas := true; has_summary := true; has_treatment := true |}
           [ {| click_latitude := "12.34"; click_longitude := "56.78";
                click_outcome :=
                  Resolved {| regional_data := Some [("Anthracnose", 5)]%string;
                              top_treatments := None; message := None |} |} ]
           {| click_latitude := "1.5"; click_longitude := "2.5";
              click_outcome := Rejected (Some "Network error"%string) |});
    reflexivity.
Defined.
